(** * Supply-chain dashboard: inventory engine, alert engine and report joiner

    A shallow embedding of [src/inventory_engine.py], [src/alert_engine.py]
    and [src/utils.py] (function [combined_report]).

    Numbers are modelled as Python has them: [float] is IEEE-754 binary64
    (Rocq's primitive floats), [int] is unbounded ([Z]).  Exceptions are
    values of type [exn], threaded through the error monad [result]. *)

From Stdlib Require Import ZArith List String Ascii Bool Lia.
From Stdlib Require Import Floats DecimalString.
From Stdlib Require Import Sorted Permutation.
Import ListNotations.

Local Open Scope Z_scope.

(* ================================================================== *)
(** * Exceptions and the error monad *)

(** The exceptions the modelled code can raise.  [InvalidInput] is the
    [ValueError("Holding cost per unit must be > 0")] raised by [eoq]; the
    others are raised by the Python runtime or by pandas. *)
Inductive exn : Type :=
| InvalidInput                 (* eoq's explicit raise *)
| MathDomainError              (* math.sqrt of a negative number *)
| NanToInteger                 (* round(nan) *)
| InfinityToInteger            (* round(inf) *)
| ZeroDivisionError            (* x / 0 on Python scalars *)
| IntTooLarge                  (* int does not fit a float *)
| KeyError (column : string).  (* missing DataFrame column *)

Inductive result (A : Type) : Type :=
| Ok (a : A)
| Raise (e : exn).
Arguments Ok {A} a.
Arguments Raise {A} e.

Definition bind {A B : Type} (m : result A) (k : A -> result B) : result B :=
  match m with
  | Ok a => k a
  | Raise e => Raise e
  end.

Notation "x <- m ;; k" := (bind m (fun x => k))
  (at level 61, m at next level, right associativity).

(** [for ... in xs: rows.append(f x)], stopping at the first exception. *)
Fixpoint mapM {A B : Type} (f : A -> result B) (xs : list A) : result (list B) :=
  match xs with
  | [] => Ok []
  | x :: xs' => y <- f x ;; ys <- mapM f xs' ;; Ok (y :: ys)
  end.

(* ================================================================== *)
(** * Python numbers *)

Module Py.

(** Nearest integer to [m * 2^e] for [m >= 0], ties to the even integer. *)
Definition round_half_even (m e : Z) : Z :=
  if 0 <=? e then m * 2 ^ e
  else
    let d := 2 ^ (- e) in
    let q := m / d in
    let r := m mod d in
    match 2 * r ?= d with
    | Lt => q
    | Gt => q + 1
    | Eq => if Z.even q then q else q + 1
    end.

(** [int(round(x))] on a float: exact round-half-even; NaN and the
    infinities cannot be converted. *)
Definition round (x : float) : result Z :=
  match Prim2SF x with
  | S754_nan => Raise NanToInteger
  | S754_infinity _ => Raise InfinityToInteger
  | S754_zero _ => Ok 0
  | S754_finite s m e => Ok (cond_Zopp s (round_half_even (Zpos m) e))
  end.

(** The exact integer [z] as an (unnormalised) binary float. *)
Definition SFofZ (z : Z) : spec_float :=
  match z with
  | Z0 => S754_zero false
  | Zpos p => S754_finite false p 0
  | Zneg p => S754_finite true p 0
  end.

(** [round(x, ndigits)] on a Python float, [ndigits >= 0]: the decimal
    with [ndigits] places nearest to the exact value of [x] (ties to even),
    converted back to the nearest float.  Non-finite values are returned
    unchanged; the sign of a zero result is the sign of [x]. *)
Definition round_ndigits (x : float) (ndigits : Z) : float :=
  match Prim2SF x with
  | S754_finite s m e =>
      match round_half_even (Zpos m * 10 ^ ndigits) e with
      | Zpos k =>
          SF2Prim (SF64div (S754_finite s k 0) (SFofZ (10 ^ ndigits)))
      | _ => SF2Prim (S754_zero s)
      end
  | _ => x
  end.

(** [float(z)]: the nearest float, [OverflowError] when there is none. *)
Definition float_of_int (z : Z) : result float :=
  let f := SF2Prim (binary_normalize prec emax z 0 false) in
  if is_infinity f then Raise IntTooLarge else Ok f.

(** [x / y] on Python floats. *)
Definition truediv (x y : float) : result float :=
  if (y =? 0)%float then Raise ZeroDivisionError else Ok (x / y)%float.

(** [a / b] on Python ints: the float nearest to the exact quotient. *)
Definition int_truediv (a b : Z) : result float :=
  if b =? 0 then Raise ZeroDivisionError
  else
    let f := SF2Prim (SF64div (SFofZ a) (SFofZ b)) in
    if is_infinity f then Raise IntTooLarge else Ok f.

(** [math.sqrt]: a domain error below zero, NaN for NaN. *)
Definition sqrt (x : float) : result float :=
  if (x <? 0)%float then Raise MathDomainError else Ok (PrimFloat.sqrt x).

(** [max(a, b)]: [b] only when it is strictly greater. *)
Definition max (a b : float) : float :=
  if (a <? b)%float then b else a.

End Py.

(* ================================================================== *)
(** * numpy scalars and pandas reductions *)

Module Np.

(** [numpy.rint]: nearest integral float, ties to even, sign kept. *)
Definition rint (x : float) : float :=
  match Prim2SF x with
  | S754_finite s m e =>
      if 0 <=? e then x
      else
        match Py.round_half_even (Zpos m) e with
        | Zpos k => SF2Prim (binary_normalize prec emax (cond_Zopp s (Zpos k)) 0 false)
        | _ => SF2Prim (S754_zero s)
        end
  | _ => x
  end.

(** [round(x, ndigits)] on a [numpy.float64]: scale, [rint], unscale. *)
Definition round_ndigits (x : float) (ndigits : Z) : float :=
  let p := SF2Prim (binary_normalize prec emax (10 ^ ndigits) 0 false) in
  (rint (x * p) / p)%float.

(** An int as a float64 (exact for the small counts it is used on). *)
Definition of_int (z : Z) : float :=
  SF2Prim (binary_normalize prec emax z 0 false).

(** [Series.sum()] of a float column ([skipna=True]: a NaN counts as 0),
    accumulated in index order. *)
Definition sum (xs : list float) : float :=
  fold_left (fun acc x => acc + (if is_nan x then 0 else x))%float xs 0%float.

(** [Series.mean()]: the sum over the number of non-NaN entries. *)
Definition mean (xs : list float) : float :=
  (sum xs / of_int (Z.of_nat (List.length (filter (fun x => negb (is_nan x)) xs))))%float.

End Np.

(* ================================================================== *)
(** * inventory_engine.py: core formulas *)

Local Open Scope string_scope.
Local Open Scope list_scope.
Local Open Scope Z_scope.

(** [DEFAULT_PARAMS] and the keyword defaults of the pipeline. *)
Record Params : Type := {
  ordering_cost  : float;
  z_score        : float;
  lead_time_days : float;
  working_days   : float
}.

Definition DEFAULT_PARAMS : Params := {|
  ordering_cost  := 2500;
  z_score        := 0x1.a666666666666p+0;  (* 1.65 *)
  lead_time_days := 14;
  working_days   := 250
|}.

(** EOQ = sqrt(2DS/H) *)
Definition eoq (annual_demand ordering_cost holding_cost_pu : float) : result Z :=
  if (holding_cost_pu <=? 0)%float then Raise InvalidInput
  else
    x <- Py.truediv (2 * annual_demand * ordering_cost)%float holding_cost_pu ;;
    r <- Py.sqrt x ;;
    Py.round r.

(** Safety Stock = Z * sigma * sqrt(LT_months) *)
Definition safety_stock (std_dev lead_time_days z_score days_per_month : float)
  : result Z :=
  lt_months <- Py.truediv lead_time_days days_per_month ;;
  r <- Py.sqrt lt_months ;;
  Py.round (z_score * std_dev * r)%float.

(** ROP = (D/working_days) * LT + SS *)
Definition reorder_point (annual_demand working_days lead_time_days : float)
                         (ss : Z) : result Z :=
  daily <- Py.truediv annual_demand working_days ;;
  s <- Py.float_of_int ss ;;
  Py.round (daily * lead_time_days + s)%float.

Definition daily_demand (annual_demand working_days : float) : result float :=
  d <- Py.truediv annual_demand working_days ;;
  Ok (Py.round_ndigits d 4).

(** Annual Holding Cost = (EOQ/2 + SS) * H *)
Definition annual_holding_cost (eoq_qty ss : Z) (holding_cost_pu : float)
  : result float :=
  h <- Py.int_truediv eoq_qty 2 ;;
  s <- Py.float_of_int ss ;;
  Ok (Py.round_ndigits ((h + s) * holding_cost_pu)%float 2).

(** Annual Ordering Cost = (D/EOQ) * S *)
Definition annual_ordering_cost (annual_demand : float) (eoq_qty : Z)
                                (ordering_cost : float) : result float :=
  if 0 <? eoq_qty then
    q <- Py.float_of_int eoq_qty ;;
    d <- Py.truediv annual_demand q ;;
    Ok (Py.round_ndigits (d * ordering_cost)%float 2)
  else Ok 0%float.

Definition total_inventory_cost (ahc aoc : float) : float :=
  Py.round_ndigits (ahc + aoc)%float 2.

Definition days_of_supply (current_stock : Z) (ann_demand working_days : float)
  : result float :=
  dd <- Py.truediv ann_demand working_days ;;
  if (0 <? dd)%float then
    c <- Py.float_of_int current_stock ;;
    q <- Py.truediv c dd ;;
    Ok (Py.round_ndigits q 1)
  else Ok 0%float.

(** Proxy: pct gap below ROP *)
Definition stockout_risk (current_stock rop : Z) : result float :=
  if 0 <? rop then
    q <- Py.int_truediv current_stock rop ;;
    Ok (Py.max 0 (Py.round_ndigits ((1 - q) * 100)%float 1))
  else Ok 0%float.

Definition alert_status (current_stock ss rop eoq_qty : Z) : string :=
  if current_stock <? ss then "🔴 CRITICAL – Below Safety Stock"
  else if current_stock <? rop then "🟠 REORDER NOW"
  else if current_stock >? rop + eoq_qty then "🟡 EXCESS STOCK"
  else "🟢 HEALTHY".

Definition _action (cs ss rop excess : Z) : string :=
  if cs <? ss then "Emergency order now"
  else if cs <? rop then "Place replenishment order"
  else if excess >? 0 then "Review demand; consider promotion"
  else "No action needed".

(* ================================================================== *)
(** * inventory_engine.py: the optimization pipeline *)

(** One row of [params_df] (columns read by the pipeline). *)
Module Input.
Record row : Type := {
  Category         : string;
  Unit_Cost_INR    : float;
  Holding_Cost_Pct : float;
  Annual_Demand    : float;
  Demand_StdDev    : float;
  Current_Stock    : Z
}.
End Input.

(** One row of the frame returned by [run_optimization]. *)
Module Metrics.
Record row : Type := {
  Category                 : string;
  Unit_Cost_INR            : float;
  Holding_Cost_Per_Unit    : float;
  Annual_Demand            : float;
  Demand_StdDev            : float;
  Daily_Demand             : float;
  EOQ_Units                : Z;
  Safety_Stock             : Z;
  Reorder_Point            : Z;
  Current_Stock            : Z;
  Days_of_Supply           : float;
  Stockout_Risk_Pct        : float;
  Excess_Stock             : Z;
  Excess_Holding_Cost_INR  : float;
  Annual_Holding_Cost_INR  : float;
  Annual_Ordering_Cost_INR : float;
  Total_Inventory_Cost_INR : float;
  Alert_Status             : string;
  Recommended_Action       : string
}.
End Metrics.

(** Body of the [for _, r in params_df.iterrows()] loop of
    [run_optimization]; [safety_stock] is called with its default
    [days_per_month = 30]. *)
Definition optimization_row (cfg : Params) (r : Input.row) : result Metrics.row :=
  let hc_pu := (Input.Unit_Cost_INR r * Input.Holding_Cost_Pct r)%float in
  eq  <- eoq (Input.Annual_Demand r) (ordering_cost cfg) hc_pu ;;
  ss  <- safety_stock (Input.Demand_StdDev r) (lead_time_days cfg) (z_score cfg) 30 ;;
  rop <- reorder_point (Input.Annual_Demand r) (working_days cfg) (lead_time_days cfg) ss ;;
  dd  <- daily_demand (Input.Annual_Demand r) (working_days cfg) ;;
  ahc <- annual_holding_cost eq ss hc_pu ;;
  aoc <- annual_ordering_cost (Input.Annual_Demand r) eq (ordering_cost cfg) ;;
  let tic := total_inventory_cost ahc aoc in
  let cs := Input.Current_Stock r in
  let excess := Z.max 0 (cs - (rop + eq)) in
  dos <- days_of_supply cs (Input.Annual_Demand r) (working_days cfg) ;;
  sr  <- stockout_risk cs rop ;;
  ex  <- Py.float_of_int excess ;;
  Ok {| Metrics.Category                 := Input.Category r;
        Metrics.Unit_Cost_INR            := Input.Unit_Cost_INR r;
        Metrics.Holding_Cost_Per_Unit    := Py.round_ndigits hc_pu 2;
        Metrics.Annual_Demand            := Input.Annual_Demand r;
        Metrics.Demand_StdDev            := Input.Demand_StdDev r;
        Metrics.Daily_Demand             := dd;
        Metrics.EOQ_Units                := eq;
        Metrics.Safety_Stock             := ss;
        Metrics.Reorder_Point            := rop;
        Metrics.Current_Stock            := cs;
        Metrics.Days_of_Supply           := dos;
        Metrics.Stockout_Risk_Pct        := sr;
        Metrics.Excess_Stock             := excess;
        Metrics.Excess_Holding_Cost_INR  := Py.round_ndigits (ex * hc_pu)%float 2;
        Metrics.Annual_Holding_Cost_INR  := ahc;
        Metrics.Annual_Ordering_Cost_INR := aoc;
        Metrics.Total_Inventory_Cost_INR := tic;
        Metrics.Alert_Status             := alert_status cs ss rop eq;
        Metrics.Recommended_Action       := _action cs ss rop excess |}.

(** Run EOQ/SS/ROP optimization for all products: the rows are computed
    in input order and nothing is returned if one of them raises. *)
Definition run_optimization (cfg : Params) (params_df : list Input.row)
  : result (list Metrics.row) :=
  mapM (optimization_row cfg) params_df.

(* ================================================================== *)
(** * inventory_engine.py: cost savings *)

Module Saving.
Record row : Type := {
  Category        : string;
  Before_Cost_INR : float;
  After_Cost_INR  : float;
  Saving_INR      : float;
  Saving_Pct      : float
}.
End Saving.

(** Body of the loop of [cost_savings_analysis]. *)
Definition savings_row (cfg : Params) (baseline_order_qty : Z) (r : Input.row)
  : result Saving.row :=
  let hc_pu := (Input.Unit_Cost_INR r * Input.Holding_Cost_Pct r)%float in
  ss <- safety_stock (Input.Demand_StdDev r) (lead_time_days cfg) (z_score cfg) 30 ;;
  eq <- eoq (Input.Annual_Demand r) (ordering_cost cfg) hc_pu ;;
  ahc0 <- annual_holding_cost baseline_order_qty ss hc_pu ;;
  aoc0 <- annual_ordering_cost (Input.Annual_Demand r) baseline_order_qty (ordering_cost cfg) ;;
  let cost_before := total_inventory_cost ahc0 aoc0 in
  ahc1 <- annual_holding_cost eq ss hc_pu ;;
  aoc1 <- annual_ordering_cost (Input.Annual_Demand r) eq (ordering_cost cfg) ;;
  let cost_after := total_inventory_cost ahc1 aoc1 in
  saving_pct <-
    (if (0 <? cost_before)%float
     then q <- Py.truediv (cost_before - cost_after)%float cost_before ;;
          Ok (q * 100)%float
     else Ok 0%float) ;;
  Ok {| Saving.Category        := Input.Category r;
        Saving.Before_Cost_INR := cost_before;
        Saving.After_Cost_INR  := cost_after;
        Saving.Saving_INR      := Py.round_ndigits (cost_before - cost_after)%float 2;
        Saving.Saving_Pct      := Py.round_ndigits saving_pct 1 |}.

(** The row written by [df.loc[len(df)] = {...}]; the two totals are
    numpy scalars, so the division does not raise and [round] is numpy's. *)
Definition total_row (total_before total_after : float) : Saving.row :=
  {| Saving.Category        := "TOTAL";
     Saving.Before_Cost_INR := total_before;
     Saving.After_Cost_INR  := total_after;
     Saving.Saving_INR      := Np.round_ndigits (total_before - total_after)%float 2;
     Saving.Saving_Pct      :=
       Np.round_ndigits ((total_before - total_after) / total_before * 100)%float 1 |}.

(** Compare EOQ-optimized cost vs fixed baseline order quantity.
    [pd.DataFrame([])] has no columns, so selecting one raises. *)
Definition cost_savings_analysis (cfg : Params) (baseline_order_qty : Z)
                                 (params_df : list Input.row)
  : result (list Saving.row) :=
  rows <- mapM (savings_row cfg baseline_order_qty) params_df ;;
  match rows with
  | [] => Raise (KeyError "Before_Cost_INR")
  | _ =>
      let total_before := Np.sum (map Saving.Before_Cost_INR rows) in
      let total_after  := Np.sum (map Saving.After_Cost_INR rows) in
      Ok (rows ++ [total_row total_before total_after])
  end.

(* ================================================================== *)
(** * alert_engine.py *)

(** The four values of the [Alert_Level] column. *)
Inductive AlertLevel : Type := CRITICAL | REORDER | EXCESS | HEALTHY.

Definition AlertLevel_eqb (a b : AlertLevel) : bool :=
  match a, b with
  | CRITICAL, CRITICAL | REORDER, REORDER | EXCESS, EXCESS | HEALTHY, HEALTHY => true
  | _, _ => false
  end.

(** The text of a level, as the source spells it. *)
Definition level_name (l : AlertLevel) : string :=
  match l with
  | CRITICAL => "CRITICAL"
  | REORDER => "REORDER"
  | EXCESS => "EXCESS"
  | HEALTHY => "HEALTHY"
  end.

Definition ALERT_THRESHOLDS (l : AlertLevel) : Z :=
  match l with
  | CRITICAL => 1
  | REORDER => 2
  | EXCESS => 3
  | HEALTHY => 4
  end.

Definition classify_alert (row : Metrics.row) : AlertLevel :=
  if Metrics.Current_Stock row <? Metrics.Safety_Stock row then CRITICAL
  else if Metrics.Current_Stock row <? Metrics.Reorder_Point row then REORDER
  else if Metrics.Excess_Stock row >? 0 then EXCESS
  else HEALTHY.

(** [f"{n}"] for an int. *)
Definition str_int (n : Z) : string := NilZero.string_of_int (Z.to_int n).

Definition _action_message (level : AlertLevel) (row : Metrics.row) : string :=
  let eoq := Metrics.EOQ_Units row in
  match level with
  | CRITICAL =>
      ("🔴 Place EMERGENCY order of " ++ str_int eoq ++ " units immediately")%string
  | REORDER =>
      ("🟠 Place standard replenishment order of " ++ str_int eoq
         ++ " units within 2 days")%string
  | EXCESS =>
      ("🟡 Review " ++ str_int (Metrics.Excess_Stock row)
         ++ " excess units — consider promotion or markdown")%string
  | HEALTHY => "🟢 No action required"
  end.

(** One row of the frame returned by [generate_alerts]. *)
Module Alert.
Record row : Type := {
  Generated_At      : string;
  Category          : string;
  Current_Stock     : Z;
  Safety_Stock      : Z;
  Reorder_Point     : Z;
  EOQ_Units         : Z;
  Days_of_Supply    : float;
  Stockout_Risk_Pct : float;
  Alert_Level       : AlertLevel;
  Priority          : Z;
  Action_Message    : string
}.
End Alert.

(** The columns [generate_alerts] adds to a row; [now] is the formatted
    [datetime.now()]. *)
Definition alert_row (now : string) (r : Metrics.row) : Alert.row :=
  let level := classify_alert r in
  {| Alert.Generated_At      := now;
     Alert.Category          := Metrics.Category r;
     Alert.Current_Stock     := Metrics.Current_Stock r;
     Alert.Safety_Stock      := Metrics.Safety_Stock r;
     Alert.Reorder_Point     := Metrics.Reorder_Point r;
     Alert.EOQ_Units         := Metrics.EOQ_Units r;
     Alert.Days_of_Supply    := Metrics.Days_of_Supply r;
     Alert.Stockout_Risk_Pct := Metrics.Stockout_Risk_Pct r;
     Alert.Alert_Level       := level;
     Alert.Priority          := ALERT_THRESHOLDS level;
     Alert.Action_Message    := _action_message level r |}.

(** [sort_values("Priority")]: rows by ascending priority.  Modelled as
    an insertion sort, which is what the default sort does on the short
    frames of this program. *)
Fixpoint insert_by_priority (a : Alert.row) (l : list Alert.row) : list Alert.row :=
  match l with
  | [] => [a]
  | b :: l' =>
      if Alert.Priority a <=? Alert.Priority b then a :: l
      else b :: insert_by_priority a l'
  end.

Definition sort_values_priority (l : list Alert.row) : list Alert.row :=
  fold_right insert_by_priority [] l.

(** Generate alert report from inventory DataFrame. *)
Definition generate_alerts (now : string) (inv_df : list Metrics.row)
  : list Alert.row :=
  let df := map (alert_row now) inv_df in
  sort_values_priority
    (filter (fun a => negb (AlertLevel_eqb (Alert.Alert_Level a) HEALTHY)) df).

(** The dict returned by [alert_summary_stats]. *)
Record SummaryStats : Type := {
  total_products    : Z;
  critical          : Z;
  reorder           : Z;
  excess            : Z;
  healthy           : Z;
  avg_days_supply   : float;
  total_excess_cost : float
}.

(** [(mask).sum()]: the number of rows satisfying [p]. *)
Definition count_rows (p : Metrics.row -> bool) (inv_df : list Metrics.row) : Z :=
  Z.of_nat (List.length (filter p inv_df)).

(** Return dict of KPI counts. *)
Definition alert_summary_stats (inv_df : list Metrics.row) : SummaryStats :=
  let total := Z.of_nat (List.length inv_df) in
  let critical :=
    count_rows (fun r => Metrics.Current_Stock r <? Metrics.Safety_Stock r) inv_df in
  let reorder :=
    count_rows (fun r => (Metrics.Current_Stock r >=? Metrics.Safety_Stock r)
                         && (Metrics.Current_Stock r <? Metrics.Reorder_Point r)) inv_df in
  let excess := count_rows (fun r => Metrics.Excess_Stock r >? 0) inv_df in
  let healthy := total - critical - reorder - excess in
  {| total_products    := total;
     critical          := critical;
     reorder           := reorder;
     excess            := excess;
     healthy           := healthy;
     avg_days_supply   :=
       Np.round_ndigits (Np.mean (map Metrics.Days_of_Supply inv_df)) 1;
     total_excess_cost :=
       Np.round_ndigits (Np.sum (map Metrics.Excess_Holding_Cost_INR inv_df)) 2 |}.

(* ================================================================== *)
(** * utils.py: combined_report *)

(** A row of the merged frame when the alert columns were joined. *)
Module Combined.
Record row : Type := {
  metrics        : Metrics.row;
  Alert_Level    : string;
  Action_Message : string
}.
End Combined.

(** The frame returned by [combined_report]: either the inventory frame
    as it came, or that frame with the two alert columns. *)
Inductive MergedFrame : Type :=
| WithoutAlertColumns (rows : list Metrics.row)
| WithAlertColumns (rows : list Combined.row).

(** [merged.join(alert_map, on="Category", how="left")]: per inventory
    row, one row per alert row of that category, or one row with missing
    values when there is none. *)
Definition left_join (inv_df : list Metrics.row) (alert_map : list Alert.row)
  : list (Metrics.row * option (string * string)) :=
  flat_map
    (fun m =>
       match filter (fun a => String.eqb (Alert.Category a) (Metrics.Category m))
                    alert_map with
       | [] => [(m, None)]
       | hits =>
           map (fun a => (m, Some (level_name (Alert.Alert_Level a),
                                   Alert.Action_Message a))) hits
       end)
    inv_df.

(** The two [fillna] calls. *)
Definition fillna (j : Metrics.row * option (string * string)) : Combined.row :=
  match j with
  | (m, Some (level, message)) =>
      {| Combined.metrics := m;
         Combined.Alert_Level := level;
         Combined.Action_Message := message |}
  | (m, None) =>
      {| Combined.metrics := m;
         Combined.Alert_Level := "HEALTHY";
         Combined.Action_Message := "No action needed" |}
  end.

(** Merge inventory optimization results with alert statuses.  The
    merged frame is also written to [out_path]; the returned frame is
    what is modelled. *)
Definition combined_report (inv_df : list Metrics.row) (alerts_df : list Alert.row)
  : MergedFrame :=
  match alerts_df with
  | [] => WithoutAlertColumns inv_df
  | _ => WithAlertColumns (map fillna (left_join inv_df alerts_df))
  end.

(* ================================================================== *)
(** * inventory_engine.py: SQL integration helpers *)

(** [s.rjust(width, "0")]. *)
Definition zfill (width : nat) (s : string) : string :=
  (String.concat EmptyString (repeat "0" (width - String.length s)) ++ s)%string.

(** [f"{x:.Nf}"] on a Python float, [N >= 1]: the decimal with [N] places
    nearest to the exact value of [x] (ties to even), sign first. *)
Definition format_f (x : float) (ndigits : nat) : string :=
  let fixed (s : bool) (k : Z) : string :=
    ((if s then "-" else EmptyString)
       ++ str_int (k / 10 ^ Z.of_nat ndigits) ++ "."
       ++ zfill ndigits (str_int (k mod 10 ^ Z.of_nat ndigits)))%string in
  match Prim2SF x with
  | S754_nan => "nan"
  | S754_infinity s => if s then "-inf" else "inf"
  | S754_zero s => fixed s 0
  | S754_finite s m e =>
      fixed s (Py.round_half_even (Zpos m * 10 ^ Z.of_nat ndigits) e)
  end.

(** [inv_df.iterrows()] on the frame [run_optimization] builds: the rows
    with their positions [0, 1, ...] as index. *)
Fixpoint iterrows_from (i : Z) (df : list Metrics.row) : list (Z * Metrics.row) :=
  match df with
  | [] => []
  | row :: rest => (i, row) :: iterrows_from (i + 1) rest
  end.

Definition iterrows (df : list Metrics.row) : list (Z * Metrics.row) :=
  iterrows_from 0 df.

(** The parenthesised tuple of one [VALUES] line, without its terminator. *)
Definition values_tuple (snapshot_date : string) (pid : Z) (row : Metrics.row) : string :=
  ("    ('" ++ snapshot_date ++ "', " ++ str_int pid ++ ", "
     ++ str_int (Metrics.Current_Stock row) ++ ", "
     ++ str_int (Metrics.EOQ_Units row) ++ ", "
     ++ str_int (Metrics.Safety_Stock row) ++ ", "
     ++ str_int (Metrics.Reorder_Point row) ++ ", "
     ++ format_f (Metrics.Daily_Demand row) 4 ++ ", 14)")%string.

(** The list [lines] of [to_sql_insert] when the loop is over. *)
Definition to_sql_insert_lines (inv_df : list Metrics.row) (snapshot_date : string)
  : list string :=
  let lines :=
    [ "-- Auto-generated by inventory_engine.py";
      ("-- Snapshot: " ++ snapshot_date)%string;
      "INSERT INTO fact_inventory";
      "    (snapshot_date, product_id, current_stock, eoq_qty,";
      "     safety_stock, reorder_point, daily_demand, lead_time_days)";
      "VALUES" ] in
  fold_left
    (fun lines '(i, row) =>
       let pid := i + 1 in
       let comma := if i <? Z.of_nat (List.length inv_df) - 1 then "," else ";" in
       lines ++ [(values_tuple snapshot_date pid row ++ comma)%string])
    (iterrows inv_df) lines.

(** Generate SQL INSERT statements for fact_inventory from optimization
    results. *)
Definition to_sql_insert (inv_df : list Metrics.row) (snapshot_date : string) : string :=
  String.concat (String (ascii_of_nat 10) EmptyString)
                (to_sql_insert_lines inv_df snapshot_date).

(* ================================================================== *)
(** * The classification rule as the specification words it *)

(** Four-way classification, evaluated in this order, first match wins:
    below safety stock, below reorder point, positive excess, otherwise
    healthy. *)
Definition four_way (currentStock safetyStock reorderPoint excessStock : Z)
  : AlertLevel :=
  if currentStock <? safetyStock then CRITICAL
  else if currentStock <? reorderPoint then REORDER
  else if 0 <? excessStock then EXCESS
  else HEALTHY.

(** The tier a pipeline tag stands for. *)
Definition tier_of_status (tag : string) : option AlertLevel :=
  if String.eqb tag "🔴 CRITICAL – Below Safety Stock" then Some CRITICAL
  else if String.eqb tag "🟠 REORDER NOW" then Some REORDER
  else if String.eqb tag "🟡 EXCESS STOCK" then Some EXCESS
  else if String.eqb tag "🟢 HEALTHY" then Some HEALTHY
  else None.

(** The recommended action the specification keys to each tier. *)
Definition action_of_tier (l : AlertLevel) : string :=
  match l with
  | CRITICAL => "Emergency order now"
  | REORDER => "Place replenishment order"
  | EXCESS => "Review demand; consider promotion"
  | HEALTHY => "No action needed"
  end.

(** Python's [x >= 0] and [x > 0] on a float. *)
Definition fnonneg (x : float) : Prop := (0 <=? x)%float = true.
Definition fpositive (x : float) : Prop := (0 <? x)%float = true.

(* ================================================================== *)
(** * Sample inputs *)

Definition sample_row (category : string) (unit_cost pct demand sd : float)
                      (stock : Z) : Input.row :=
  {| Input.Category := category;
     Input.Unit_Cost_INR := unit_cost;
     Input.Holding_Cost_Pct := pct;
     Input.Annual_Demand := demand;
     Input.Demand_StdDev := sd;
     Input.Current_Stock := stock |}.

Definition electronics : Input.row := sample_row "Electronics" 500 0.25 12000 100 50.
Definition apparel     : Input.row := sample_row "Apparel" 200 0.25 6000 80 400.
Definition sports      : Input.row := sample_row "Sports & Outdoors" 100 0.5 3000 50 2000.
Definition beauty      : Input.row := sample_row "Beauty & Health" 50 0.5 2500 20 700.
Definition free_goods  : Input.row := sample_row "Free" 0 0.25 1000 10 10.
Definition small_stock : Input.row := sample_row "X" 5000 1 25000 100 50.

Definition sample_params : list Input.row := [electronics; apparel; sports; beauty].

(** Negative working days: a configuration the pipeline accepts. *)
Definition backwards_year : Params := {|
  ordering_cost  := 2500;
  z_score        := 0x1.a666666666666p+0;
  lead_time_days := 14;
  working_days   := -250
|}.

(** A configuration with no working days. *)
Definition idle_year : Params := {|
  ordering_cost  := 2500;
  z_score        := 0x1.a666666666666p+0;
  lead_time_days := 14;
  working_days   := 0
|}.

(** The pipeline output for the sample table, and its all-healthy part. *)
Definition sample_metrics : list Metrics.row :=
  match run_optimization DEFAULT_PARAMS sample_params with
  | Ok rows => rows
  | Raise _ => []
  end.

Definition healthy_metrics : list Metrics.row :=
  match run_optimization DEFAULT_PARAMS [beauty] with
  | Ok rows => rows
  | Raise _ => []
  end.

(* ================================================================== *)
(** * Notions used to state the properties *)

(** The order [sort_values("Priority")] establishes. *)
Definition by_priority (a b : Alert.row) : Prop :=
  Alert.Priority a <= Alert.Priority b.

(** The merged frame has a row for [m] with these two alert fields. *)
Definition has_alert_fields (frame : MergedFrame) (m : Metrics.row)
                            (level message : string) : Prop :=
  match frame with
  | WithAlertColumns rows =>
      In {| Combined.metrics := m;
            Combined.Alert_Level := level;
            Combined.Action_Message := message |} rows
  | WithoutAlertColumns _ => False
  end.

(** The alert rows of the category of [m]. *)
Definition alerts_of (alerts_df : list Alert.row) (m : Metrics.row) : list Alert.row :=
  filter (fun a => String.eqb (Alert.Category a) (Metrics.Category m)) alerts_df.



(** The three masks of [alert_summary_stats], and the classifier's label. *)
Definition is_critical (m : Metrics.row) : bool :=
  Metrics.Current_Stock m <? Metrics.Safety_Stock m.
Definition is_reorder (m : Metrics.row) : bool :=
  (Metrics.Current_Stock m >=? Metrics.Safety_Stock m)
  && (Metrics.Current_Stock m <? Metrics.Reorder_Point m).
Definition is_excess (m : Metrics.row) : bool :=
  Metrics.Excess_Stock m >? 0.
Definition labelled (l : AlertLevel) (m : Metrics.row) : bool :=
  AlertLevel_eqb (classify_alert m) l.

(** A row on which the three masks cannot overlap. *)
Definition consistent_row (m : Metrics.row) : Prop :=
  0 <= Metrics.EOQ_Units m /\
  Metrics.Safety_Stock m <= Metrics.Reorder_Point m /\
  Metrics.Excess_Stock m
  = Z.max 0 (Metrics.Current_Stock m - (Metrics.Reorder_Point m + Metrics.EOQ_Units m)).

(** The input columns the pipeline copies into its output row. *)
Definition copies_input (r : Input.row) (m : Metrics.row) : Prop :=
  Metrics.Category m = Input.Category r /\
  Metrics.Unit_Cost_INR m = Input.Unit_Cost_INR r /\
  Metrics.Annual_Demand m = Input.Annual_Demand r /\
  Metrics.Demand_StdDev m = Input.Demand_StdDev r /\
  Metrics.Current_Stock m = Input.Current_Stock r.

(** A row counted by the excess mask and by the critical or reorder mask. *)
Definition double_counted (m : Metrics.row) : bool :=
  is_excess m && (is_critical m || is_reorder m).


(* ================================================================== *)
(** * Classes and values of binary64 numbers *)

(** Not negative: a zero of either sign, a positive number, [+inf], or NaN. *)
Definition SFnn (f : spec_float) : Prop :=
  match f with
  | S754_zero _ | S754_nan | S754_infinity false | S754_finite false _ _ => True
  | _ => False
  end.

(** Not negative and not NaN. *)
Definition SFge0 (f : spec_float) : Prop :=
  match f with
  | S754_zero _ | S754_infinity false | S754_finite false _ _ => True
  | _ => False
  end.

(** Strictly positive. *)
Definition SFgt0 (f : spec_float) : Prop :=
  match f with
  | S754_infinity false | S754_finite false _ _ => True
  | _ => False
  end.

(** Finite and not negative. *)
Definition SFfin0 (f : spec_float) : Prop :=
  match f with
  | S754_zero _ | S754_finite false _ _ => True
  | _ => False
  end.

(** Not positive: a zero of either sign, a negative number, [-inf], or NaN. *)
Definition SFnp (f : spec_float) : Prop :=
  match f with
  | S754_zero _ | S754_nan | S754_infinity true | S754_finite true _ _ => True
  | _ => False
  end.

(** The value [m * 2^e] of a finite float in units of [2^-1074], the
    least positive binary64 number: an integer when [e >= -1074]. *)
Definition scaled (m : positive) (e : Z) : Z := Z.pos m * 2 ^ (e + 1074).

(** The integer [p] is a multiple of the unit binary64 gives to its
    binade, so that [float(p)] is exact. *)
Definition representable (p : positive) : Prop :=
  exists k, Z.pos p * 2 ^ 1074 = k * 2 ^ (fexp prec emax (Z.pos (digits2_pos p)) + 1074).

(* ================================================================== *)
(** * The error monad and the row loop *)

Lemma bind_Ok {A B : Type} (m : result A) (k : A -> result B) (b : B) :
  bind m k = Ok b -> exists a, m = Ok a /\ k a = Ok b.
Proof.
  destruct m as [a|e]; simpl; intros H; [eauto | discriminate].
Qed.

(** Peels the successful binds off a hypothesis [... = Ok _]. *)
Ltac inv_bind H :=
  repeat match type of H with
  | bind ?m ?k = Ok _ =>
      let a := fresh "v" in
      let E := fresh "E" in
      apply bind_Ok in H; destruct H as (a & E & H)
  end.

Lemma mapM_Ok_In {A B : Type} (f : A -> result B) (xs : list A) (ys : list B) :
  mapM f xs = Ok ys -> forall y, In y ys -> exists x, In x xs /\ f x = Ok y.
Proof.
  revert ys; induction xs as [|x xs IH]; simpl; intros ys H y Hy.
  - inversion H; subst; contradiction.
  - inv_bind H. inversion H; subst; clear H.
    destruct Hy as [<-|Hy]; [eauto|].
    destruct (IH _ E0 _ Hy) as (x' & Hin & Hx'); eauto.
Qed.

Lemma mapM_Ok_Forall2 {A B : Type} (f : A -> result B) (xs : list A) (ys : list B) :
  mapM f xs = Ok ys -> Forall2 (fun x y => f x = Ok y) xs ys.
Proof.
  revert ys; induction xs as [|x xs IH]; simpl; intros ys H.
  - inversion H; constructor.
  - inv_bind H. inversion H; subst. constructor; auto.
Qed.

(** A row that raises makes the whole loop raise. *)
Lemma mapM_Raise_In {A B : Type} (f : A -> result B) (xs : list A) (x : A) (e : exn) :
  In x xs -> f x = Raise e -> exists e', mapM f xs = Raise e'.
Proof.
  induction xs as [|x0 xs IH]; simpl; [contradiction|].
  intros [->|Hin] Hx.
  - rewrite Hx; simpl; eauto.
  - destruct (f x0) as [y|e0]; simpl; [|eauto].
    destruct (IH Hin Hx) as (e' & ->); simpl; eauto.
Qed.

(** The first row that raises decides the exception. *)
Lemma mapM_Raise_first {A B : Type} (f : A -> result B)
      (pre post : list A) (x : A) (ys : list B) (e : exn) :
  mapM f pre = Ok ys -> f x = Raise e -> mapM f (pre ++ x :: post) = Raise e.
Proof.
  revert ys; induction pre as [|p pre IH]; simpl; intros ys Hpre Hx.
  - rewrite Hx; reflexivity.
  - inv_bind Hpre. rewrite E. simpl. rewrite (IH _ E0 Hx). reflexivity.
Qed.

(** What a successful pipeline row looks like. *)
Lemma optimization_row_Ok (cfg : Params) (r : Input.row) (m : Metrics.row) :
  optimization_row cfg r = Ok m ->
  let hc_pu := (Input.Unit_Cost_INR r * Input.Holding_Cost_Pct r)%float in
  let cs := Input.Current_Stock r in
  exists eq ss rop,
    eoq (Input.Annual_Demand r) (ordering_cost cfg) hc_pu = Ok eq /\
    safety_stock (Input.Demand_StdDev r) (lead_time_days cfg) (z_score cfg) 30 = Ok ss /\
    reorder_point (Input.Annual_Demand r) (working_days cfg) (lead_time_days cfg) ss
      = Ok rop /\
    days_of_supply cs (Input.Annual_Demand r) (working_days cfg)
      = Ok (Metrics.Days_of_Supply m) /\
    stockout_risk cs rop = Ok (Metrics.Stockout_Risk_Pct m) /\
    Metrics.EOQ_Units m = eq /\
    Metrics.Safety_Stock m = ss /\
    Metrics.Reorder_Point m = rop /\
    Metrics.Current_Stock m = cs /\
    Metrics.Excess_Stock m = Z.max 0 (cs - (rop + eq)) /\
    Metrics.Alert_Status m = alert_status cs ss rop eq /\
    Metrics.Recommended_Action m = _action cs ss rop (Z.max 0 (cs - (rop + eq))).
Proof.
  unfold optimization_row; intros H; inv_bind H.
  inversion H; subst; clear H; simpl.
  exists v, v0, v1. repeat split; assumption.
Qed.

Lemma run_optimization_In (cfg : Params) (params_df : list Input.row)
      (out : list Metrics.row) (m : Metrics.row) :
  run_optimization cfg params_df = Ok out -> In m out ->
  exists r, In r params_df /\ optimization_row cfg r = Ok m.
Proof.
  unfold run_optimization; intros H Hin. eapply mapM_Ok_In; eauto.
Qed.

(* ================================================================== *)
(** * The pipeline tag and the classifier *)

Lemma alert_status_tier (cs ss rop eq : Z) :
  tier_of_status (alert_status cs ss rop eq)
  = Some (four_way cs ss rop (Z.max 0 (cs - (rop + eq)))).
Proof.
  unfold alert_status, four_way.
  destruct (cs <? ss); [reflexivity|].
  destruct (cs <? rop); [reflexivity|].
  destruct (Z.gtb_spec cs (rop + eq)), (Z.ltb_spec 0 (Z.max 0 (cs - (rop + eq))));
    try reflexivity; lia.
Qed.

Lemma _action_tier (cs ss rop excess : Z) :
  _action cs ss rop excess = action_of_tier (four_way cs ss rop excess).
Proof.
  unfold _action, four_way.
  destruct (cs <? ss); [reflexivity|].
  destruct (cs <? rop); [reflexivity|].
  rewrite Z.gtb_ltb. destruct (0 <? excess); reflexivity.
Qed.

Lemma classify_alert_four_way (m : Metrics.row) :
  classify_alert m
  = four_way (Metrics.Current_Stock m) (Metrics.Safety_Stock m)
             (Metrics.Reorder_Point m) (Metrics.Excess_Stock m).
Proof.
  unfold classify_alert, four_way. rewrite Z.gtb_ltb. reflexivity.
Qed.

(** C2: every row of the pipeline carries the tag (and the recommended
    action) of the four-way classification taken in strict order; excess
    is positive exactly when the stock exceeds reorder point plus EOQ, so
    a stock equal to reorder point plus EOQ is never EXCESS and is HEALTHY
    once the two earlier tests fail; a stock below safety stock is CRITICAL
    whatever the other fields are. *)
Theorem C2_pipeline_tag_is_four_way :
  forall (cfg : Params) (params_df : list Input.row) (out : list Metrics.row),
    run_optimization cfg params_df = Ok out ->
    Forall (fun m =>
      let cs := Metrics.Current_Stock m in
      let ss := Metrics.Safety_Stock m in
      let rop := Metrics.Reorder_Point m in
      let eq := Metrics.EOQ_Units m in
      let excess := Metrics.Excess_Stock m in
      tier_of_status (Metrics.Alert_Status m) = Some (four_way cs ss rop excess) /\
      Metrics.Recommended_Action m = action_of_tier (four_way cs ss rop excess) /\
      (0 < excess <-> rop + eq < cs) /\
      (cs = rop + eq -> four_way cs ss rop excess <> EXCESS) /\
      (cs = rop + eq -> ss <= cs -> rop <= cs -> four_way cs ss rop excess = HEALTHY) /\
      (cs < ss -> four_way cs ss rop excess = CRITICAL)) out.
Proof.
  intros cfg params_df out Hrun. apply Forall_forall. intros m Hin.
  destruct (run_optimization_In _ _ _ _ Hrun Hin) as (r & _ & Hrow).
  apply optimization_row_Ok in Hrow.
  destruct Hrow as (eq & ss & rop & _ & _ & _ & _ & _ & He & Hs & Hr & Hc & Hx & Ha & Hact).
  cbv zeta. rewrite He, Hs, Hr, Hc, Hx, Ha, Hact.
  set (cs := Input.Current_Stock r).
  split; [apply alert_status_tier|].
  split; [apply _action_tier|].
  split; [lia|].
  unfold four_way.
  repeat split; intros;
    repeat match goal with
           | |- context [?a <? ?b] => destruct (Z.ltb_spec a b)
           end; try congruence; try lia.
Qed.

Lemma C2_pipeline_tag_is_four_way_witness :
  exists out, run_optimization DEFAULT_PARAMS sample_params = Ok out /\
    map (fun m => tier_of_status (Metrics.Alert_Status m)) out
    = [Some CRITICAL; Some REORDER; Some EXCESS; Some HEALTHY] /\
    Forall (fun m =>
      tier_of_status (Metrics.Alert_Status m)
      = Some (four_way (Metrics.Current_Stock m) (Metrics.Safety_Stock m)
                       (Metrics.Reorder_Point m) (Metrics.Excess_Stock m))) out.
Proof.
  destruct (run_optimization DEFAULT_PARAMS sample_params) as [out|e] eqn:E;
    [|vm_compute in E; discriminate].
  exists out. split; [reflexivity|]. split.
  - vm_compute in E. inversion E; subst. vm_compute. reflexivity.
  - pose proof (C2_pipeline_tag_is_four_way DEFAULT_PARAMS sample_params out E) as H.
    eapply Forall_impl; [|exact H]. cbv zeta. intros m Hm. exact (proj1 Hm).
Defined.

(** C4: on every row of the pipeline the classifier's own tier, which is
    the four-way rule read off the row, is the tier of the tag the
    pipeline attached to that row. *)
Theorem C4_classifier_agrees_with_pipeline_tag :
  forall (cfg : Params) (params_df : list Input.row) (out : list Metrics.row),
    run_optimization cfg params_df = Ok out ->
    Forall (fun m =>
      classify_alert m
      = four_way (Metrics.Current_Stock m) (Metrics.Safety_Stock m)
                 (Metrics.Reorder_Point m) (Metrics.Excess_Stock m) /\
      tier_of_status (Metrics.Alert_Status m) = Some (classify_alert m)) out.
Proof.
  intros cfg params_df out Hrun. apply Forall_forall. intros m Hin.
  split; [apply classify_alert_four_way|].
  destruct (run_optimization_In _ _ _ _ Hrun Hin) as (r & _ & Hrow).
  apply optimization_row_Ok in Hrow.
  destruct Hrow as (eq & ss & rop & _ & _ & _ & _ & _ & He & Hs & Hr & Hc & Hx & Ha & _).
  rewrite classify_alert_four_way, Ha, Hs, Hr, Hc, Hx. apply alert_status_tier.
Qed.

Lemma C4_classifier_agrees_with_pipeline_tag_witness :
  exists out, run_optimization DEFAULT_PARAMS sample_params = Ok out /\
    map classify_alert out = [CRITICAL; REORDER; EXCESS; HEALTHY] /\
    Forall (fun m => tier_of_status (Metrics.Alert_Status m) = Some (classify_alert m)) out.
Proof.
  destruct (run_optimization DEFAULT_PARAMS sample_params) as [out|e] eqn:E;
    [|vm_compute in E; discriminate].
  exists out. split; [reflexivity|]. split.
  - vm_compute in E. inversion E; subst. vm_compute. reflexivity.
  - pose proof (C4_classifier_agrees_with_pipeline_tag DEFAULT_PARAMS sample_params out E) as H.
    eapply Forall_impl; [|exact H]. intros m Hm. exact (proj2 Hm).
Defined.

(* ================================================================== *)
(** * Invalid input *)

Lemma eoq_InvalidInput_iff (D S H : float) :
  eoq D S H = Raise InvalidInput <-> (H <=? 0)%float = true.
Proof.
  unfold eoq. destruct (H <=? 0)%float; split; intros E; try reflexivity;
    try discriminate.
  exfalso. revert E. unfold Py.truediv, Py.sqrt, Py.round.
  destruct (H =? 0)%float; simpl; [discriminate|].
  destruct (_ <? 0)%float; simpl; [discriminate|].
  destruct (Prim2SF _); discriminate.
Qed.

Lemma optimization_row_InvalidInput (cfg : Params) (r : Input.row) :
  (Input.Unit_Cost_INR r * Input.Holding_Cost_Pct r <=? 0)%float = true ->
  optimization_row cfg r = Raise InvalidInput.
Proof.
  intros H. unfold optimization_row.
  apply (eoq_InvalidInput_iff (Input.Annual_Demand r) (ordering_cost cfg)) in H.
  rewrite H. reflexivity.
Qed.

(** C5: [eoq] raises [InvalidInput] exactly when the holding cost per
    unit is [<= 0]; the pipeline lets it through: a table with one row
    whose unit cost times holding-cost fraction is [<= 0] yields an
    exception and no rows, and the exception is [InvalidInput] when the
    rows before it computed. *)
Theorem C5_invalid_holding_cost_fails_run :
  (forall D S H : float,
      eoq D S H = Raise InvalidInput <-> (H <=? 0)%float = true) /\
  (forall (cfg : Params) (params_df : list Input.row) (r : Input.row),
      In r params_df ->
      (Input.Unit_Cost_INR r * Input.Holding_Cost_Pct r <=? 0)%float = true ->
      exists e, run_optimization cfg params_df = Raise e) /\
  (forall (cfg : Params) (pre post : list Input.row) (r : Input.row)
          (done : list Metrics.row),
      run_optimization cfg pre = Ok done ->
      (Input.Unit_Cost_INR r * Input.Holding_Cost_Pct r <=? 0)%float = true ->
      run_optimization cfg (pre ++ r :: post) = Raise InvalidInput).
Proof.
  split; [exact eoq_InvalidInput_iff|]. split.
  - intros cfg params_df r Hin H. unfold run_optimization.
    eapply mapM_Raise_In; [exact Hin|].
    apply optimization_row_InvalidInput; exact H.
  - intros cfg pre post r done Hpre H. unfold run_optimization in *.
    eapply mapM_Raise_first; [exact Hpre|].
    apply optimization_row_InvalidInput; exact H.
Qed.

Lemma C5_invalid_holding_cost_fails_run_witness :
  eoq 12000 2500 0 = Raise InvalidInput /\
  run_optimization DEFAULT_PARAMS ([electronics] ++ free_goods :: [apparel])
  = Raise InvalidInput.
Proof.
  destruct C5_invalid_holding_cost_fails_run as (Ha & _ & Hc). split.
  - apply Ha. reflexivity.
  - destruct (run_optimization DEFAULT_PARAMS [electronics]) as [done|e] eqn:E;
      [|vm_compute in E; discriminate].
    apply (Hc DEFAULT_PARAMS [electronics] [apparel] free_goods done E).
    reflexivity.
Defined.

(* ================================================================== *)
(** * Guarded divisions *)

Lemma Prim2SF_zero : Prim2SF 0 = S754_zero false.
Proof. reflexivity. Qed.

Lemma eqb_zero_not_positive (x : float) :
  (x =? 0)%float = true -> (0 <? x)%float = false.
Proof.
  rewrite eqb_spec, ltb_spec, Prim2SF_zero.
  destruct (Prim2SF x) as [s|s| |s m e]; try destruct s; simpl;
    intros H; solve [reflexivity | discriminate H].
Qed.

(** C6: the three guarded cases return normally with [0.0]: the annual
    ordering cost at [EOQ = 0], the days of supply when the daily demand
    [D / working_days] is zero, and the stockout risk at [ROP = 0]. *)
Theorem C6_divide_by_zero_guards :
  (forall (annual_demand ordering_cost : float),
      annual_ordering_cost annual_demand 0 ordering_cost = Ok 0%float) /\
  (forall (current_stock : Z) (ann_demand working_days : float),
      (working_days =? 0)%float = false ->
      (ann_demand / working_days =? 0)%float = true ->
      days_of_supply current_stock ann_demand working_days = Ok 0%float) /\
  (forall (current_stock : Z),
      stockout_risk current_stock 0 = Ok 0%float).
Proof.
  split; [reflexivity|]. split; [|reflexivity].
  intros cs D wd Hwd Hdd. unfold days_of_supply, Py.truediv.
  rewrite Hwd. simpl. rewrite (eqb_zero_not_positive _ Hdd). reflexivity.
Qed.

Lemma C6_divide_by_zero_guards_witness :
  annual_ordering_cost 12000 0 2500 = Ok 0%float /\
  days_of_supply 500 0 250 = Ok 0%float /\
  stockout_risk 500 0 = Ok 0%float.
Proof.
  destruct C6_divide_by_zero_guards as (Ha & Hb & Hc).
  split; [apply Ha|]. split; [|apply Hc].
  apply Hb; reflexivity.
Defined.

(* ================================================================== *)
(** * The alert report *)

Lemma insert_by_priority_perm (a : Alert.row) (l : list Alert.row) :
  Permutation (insert_by_priority a l) (a :: l).
Proof.
  induction l as [|b l IH]; simpl; [reflexivity|].
  destruct (Alert.Priority a <=? Alert.Priority b); [reflexivity|].
  rewrite IH. apply perm_swap.
Qed.

Lemma sort_values_priority_perm (l : list Alert.row) :
  Permutation (sort_values_priority l) l.
Proof.
  induction l as [|a l IH]; simpl; [reflexivity|].
  rewrite insert_by_priority_perm. constructor. exact IH.
Qed.

Lemma insert_by_priority_sorted (a : Alert.row) (l : list Alert.row) :
  StronglySorted by_priority l -> StronglySorted by_priority (insert_by_priority a l).
Proof.
  induction 1 as [|b l Hs IH Hb]; simpl.
  - repeat constructor.
  - destruct (Z.leb_spec (Alert.Priority a) (Alert.Priority b)) as [Hle|Hgt].
    + constructor; [constructor; assumption|].
      constructor; [exact Hle|].
      eapply Forall_impl; [|exact Hb]. unfold by_priority. intros; lia.
    + constructor; [exact IH|].
      eapply Permutation_Forall; [symmetry; apply insert_by_priority_perm|].
      constructor; [unfold by_priority; lia | exact Hb].
Qed.

Lemma sort_values_priority_sorted (l : list Alert.row) :
  StronglySorted by_priority (sort_values_priority l).
Proof.
  induction l as [|a l IH]; simpl; [constructor|].
  apply insert_by_priority_sorted; exact IH.
Qed.

(** C7: no row of the alert report is HEALTHY; each row carries the
    priority of its level under CRITICAL=1, REORDER=2, EXCESS=3
    (HEALTHY=4), hence a priority between 1 and 3; the rows are sorted
    by ascending priority and are the non-healthy rows of the input. *)
Theorem C7_alert_report_filtered_and_sorted :
  forall (now : string) (inv_df : list Metrics.row),
    Forall (fun a =>
              Alert.Alert_Level a <> HEALTHY /\
              Alert.Priority a = ALERT_THRESHOLDS (Alert.Alert_Level a) /\
              1 <= Alert.Priority a <= 3)
           (generate_alerts now inv_df) /\
    (ALERT_THRESHOLDS CRITICAL = 1 /\ ALERT_THRESHOLDS REORDER = 2 /\
     ALERT_THRESHOLDS EXCESS = 3 /\ ALERT_THRESHOLDS HEALTHY = 4) /\
    StronglySorted by_priority (generate_alerts now inv_df) /\
    Permutation (generate_alerts now inv_df)
      (filter (fun a => negb (AlertLevel_eqb (Alert.Alert_Level a) HEALTHY))
              (map (alert_row now) inv_df)).
Proof.
  intros now inv_df. unfold generate_alerts.
  split; [|split; [repeat split|split]].
  - eapply Permutation_Forall; [symmetry; apply sort_values_priority_perm|].
    apply Forall_forall. intros a Ha.
    apply filter_In in Ha. destruct Ha as (Hin & Hlvl).
    apply in_map_iff in Hin. destruct Hin as (m & <- & _).
    simpl in *. destruct (classify_alert m); simpl in *;
      repeat split; try discriminate; try lia.
  - apply sort_values_priority_sorted.
  - apply sort_values_priority_perm.
Qed.

(* ================================================================== *)
(** * The combined report *)

Lemma left_join_In (inv_df : list Metrics.row) (alerts_df : list Alert.row)
      (j : Metrics.row * option (string * string)) :
  In j (left_join inv_df alerts_df) <->
  exists m, In m inv_df /\
    ((alerts_of alerts_df m = [] /\ j = (m, None)) \/
     (exists a, In a (alerts_of alerts_df m) /\
        j = (m, Some (level_name (Alert.Alert_Level a), Alert.Action_Message a)))).
Proof.
  unfold left_join. rewrite in_flat_map. split.
  - intros (m & Hm & Hj). exists m. split; [exact Hm|].
    fold (alerts_of alerts_df m) in Hj.
    destruct (alerts_of alerts_df m) as [|a hits] eqn:E.
    + left. destruct Hj as [<-|[]]. auto.
    + right. apply in_map_iff in Hj. destruct Hj as (a' & <- & Ha'). eauto.
  - intros (m & Hm & H). exists m. split; [exact Hm|].
    fold (alerts_of alerts_df m).
    destruct H as [(E & ->)|(a & Ha & ->)].
    + rewrite E. left. reflexivity.
    + destruct (alerts_of alerts_df m) as [|a0 hits] eqn:E; [contradiction|].
      apply in_map_iff. eauto.
Qed.

Lemma left_join_unique (inv_df : list Metrics.row) (alerts_df : list Alert.row) :
  Forall (fun m => (List.length (alerts_of alerts_df m) <= 1)%nat) inv_df ->
  map fst (left_join inv_df alerts_df) = inv_df.
Proof.
  unfold left_join. induction 1 as [|m l Hm _ IH]; [reflexivity|].
  cbn [flat_map]. rewrite map_app, IH. fold (alerts_of alerts_df m).
  destruct (alerts_of alerts_df m) as [|a [|b hits]]; simpl in *;
    [reflexivity | reflexivity | lia].
Qed.

(** C9 (the claim as worded, at an all-healthy table): the merged frame
    of a table whose alert report is empty has no row carrying
    [HEALTHY] / ["No action needed"]: it has no alert columns at all. *)
Lemma C9_counterexample :
  generate_alerts "2025-02-01 09:00:00" healthy_metrics = [] /\
  healthy_metrics <> [] /\
  ~ (forall m, In m healthy_metrics ->
       has_alert_fields
         (combined_report healthy_metrics
            (generate_alerts "2025-02-01 09:00:00" healthy_metrics))
         m "HEALTHY" "No action needed").
Proof.
  split; [vm_compute; reflexivity|]. split.
  - vm_compute. discriminate.
  - intros H.
    assert (E : generate_alerts "2025-02-01 09:00:00" healthy_metrics = [])
      by (vm_compute; reflexivity).
    rewrite E in H. simpl in H.
    destruct healthy_metrics as [|m l] eqn:Em; [vm_compute in Em; discriminate|].
    exact (H m (or_introl eq_refl)).
Qed.

(** C9 (amended): with a non-empty alert table the report left-joins
    the alert fields onto the inventory rows by category: a row without
    an alert of its category gets [HEALTHY] / ["No action needed"], a row
    with one gets that alert's level and message, nothing else appears,
    and the inventory rows keep their order when no category has two
    alerts.  With an empty alert table the inventory frame is returned as
    it is, without alert columns. *)
Theorem C9_combined_report_left_join :
  forall (inv_df : list Metrics.row) (alerts_df : list Alert.row),
    (alerts_df = [] -> combined_report inv_df alerts_df = WithoutAlertColumns inv_df) /\
    (alerts_df <> [] ->
     exists rows,
       combined_report inv_df alerts_df = WithAlertColumns rows /\
       (forall m, In m inv_df -> alerts_of alerts_df m = [] ->
          has_alert_fields (combined_report inv_df alerts_df) m
                           "HEALTHY" "No action needed") /\
       (forall m a, In m inv_df -> In a alerts_df ->
          Alert.Category a = Metrics.Category m ->
          has_alert_fields (combined_report inv_df alerts_df) m
                           (level_name (Alert.Alert_Level a)) (Alert.Action_Message a)) /\
       (forall row, In row rows ->
          In (Combined.metrics row) inv_df /\
          ((alerts_of alerts_df (Combined.metrics row) = [] /\
            Combined.Alert_Level row = "HEALTHY" /\
            Combined.Action_Message row = "No action needed") \/
           (exists a, In a alerts_df /\
              Alert.Category a = Metrics.Category (Combined.metrics row) /\
              Combined.Alert_Level row = level_name (Alert.Alert_Level a) /\
              Combined.Action_Message row = Alert.Action_Message a))) /\
       (Forall (fun m => (List.length (alerts_of alerts_df m) <= 1)%nat) inv_df ->
        map Combined.metrics rows = inv_df)).
Proof.
  intros inv_df alerts_df. split; [intros ->; reflexivity|].
  intros Hne.
  assert (E : combined_report inv_df alerts_df
              = WithAlertColumns (map fillna (left_join inv_df alerts_df))).
  { unfold combined_report. destruct alerts_df; [congruence | reflexivity]. }
  rewrite E. eexists. split; [reflexivity|]. simpl.
  split; [|split; [|split]].
  - intros m Hm Hnone. apply in_map_iff.
    exists (m, None). split; [reflexivity|].
    apply left_join_In. eauto.
  - intros m a Hm Ha Hcat. apply in_map_iff.
    exists (m, Some (level_name (Alert.Alert_Level a), Alert.Action_Message a)).
    split; [reflexivity|]. apply left_join_In. exists m. split; [exact Hm|].
    right. exists a. split; [|reflexivity].
    apply filter_In. split; [exact Ha|]. apply String.eqb_eq. exact Hcat.
  - intros row Hrow. apply in_map_iff in Hrow. destruct Hrow as (j & <- & Hj).
    apply left_join_In in Hj.
    destruct Hj as (m & Hm & [(Hnone & ->)|(a & Ha & ->)]); simpl.
    + split; [exact Hm|]. left. auto.
    + split; [exact Hm|]. right. apply filter_In in Ha. destruct Ha as (Ha & Hc).
      apply String.eqb_eq in Hc. exists a. auto.
  - intros Huniq. rewrite <- (left_join_unique _ _ Huniq) at 2.
    rewrite map_map. apply map_ext. intros [m [[l msg]|]]; reflexivity.
Qed.

Lemma C9_combined_report_left_join_witness :
  combined_report healthy_metrics [] = WithoutAlertColumns healthy_metrics /\
  exists rows,
    combined_report sample_metrics (generate_alerts "2025-02-01 09:00:00" sample_metrics)
    = WithAlertColumns rows /\
    map Combined.Alert_Level rows = ["CRITICAL"; "REORDER"; "EXCESS"; "HEALTHY"] /\
    map Combined.metrics rows = sample_metrics.
Proof.
  split.
  - apply (C9_combined_report_left_join healthy_metrics []). reflexivity.
  - destruct (C9_combined_report_left_join sample_metrics
                (generate_alerts "2025-02-01 09:00:00" sample_metrics)) as (_ & H).
    destruct H as (rows & E & _ & _ & _ & Hord); [vm_compute; discriminate|].
    exists rows. split; [exact E|]. split.
    + vm_compute in E. inversion E; subst. vm_compute. reflexivity.
    + apply Hord. vm_compute. repeat constructor.
Defined.

(* ================================================================== *)
(** * The cost-savings comparison *)







(* ================================================================== *)
(** * Signs of binary64 results *)

Lemma SFge0_nn f : SFge0 f -> SFnn f.
Proof. destruct f as [s|s| |s m e]; try destruct s; simpl; auto. Qed.


Lemma fnonneg_spec x : fnonneg x <-> SFge0 (Prim2SF x).
Proof.
  unfold fnonneg. rewrite leb_spec, Prim2SF_zero.
  destruct (Prim2SF x) as [s|s| |s m e]; try destruct s; simpl; intuition discriminate.
Qed.

Lemma fpositive_spec x : fpositive x <-> SFgt0 (Prim2SF x).
Proof.
  unfold fpositive. rewrite ltb_spec, Prim2SF_zero.
  destruct (Prim2SF x) as [s|s| |s m e]; try destruct s; simpl; intuition discriminate.
Qed.



Lemma SFgt0_not_eqb0 x : SFgt0 (Prim2SF x) -> (x =? 0)%float = false.
Proof.
  rewrite eqb_spec, Prim2SF_zero.
  destruct (Prim2SF x) as [s|s| |s m e]; try destruct s; simpl; intuition discriminate.
Qed.

(** The result of rounding keeps the sign it is given. *)
Lemma binary_round_aux_sign sx mx ex lx :
  match binary_round_aux prec emax sx mx ex lx with
  | S754_zero s | S754_infinity s | S754_finite s _ _ => s = sx
  | S754_nan => True
  end.
Proof.
  unfold binary_round_aux.
  destruct (shr_fexp prec emax mx ex lx) as [mrs' e'].
  destruct (shr_fexp prec emax _ e' loc_Exact) as [mrs'' e''].
  destruct (shr_m mrs''); auto.
  destruct (e'' <=? emax - prec); auto.
Qed.

Lemma binary_round_aux_nn mx ex lx : SFnn (binary_round_aux prec emax false mx ex lx).
Proof.
  pose proof (binary_round_aux_sign false mx ex lx) as H.
  destruct (binary_round_aux prec emax false mx ex lx); subst; simpl; auto.
Qed.

Lemma SFmul_nn a b : SFnn a -> SFnn b -> SFnn (SF64mul a b).
Proof.
  destruct a as [[]|[]| |[] ma ea], b as [[]|[]| |[] mb eb]; simpl;
    intros Ha Hb; try contradiction; try exact I.
  apply binary_round_aux_nn.
Qed.

Lemma SFdiv_nn a b : SFnn a -> SFgt0 b -> SFnn (SF64div a b).
Proof.
  destruct a as [[]|[]| |[] ma ea], b as [[]|[]| |[] mb eb]; simpl;
    intros Ha Hb; try contradiction; try exact I.
  unfold SF64div, SFdiv.
  destruct (SFdiv_core_binary prec emax (Z.pos ma) ea (Z.pos mb) eb) as [[mz ez] lz].
  apply binary_round_aux_nn.
Qed.

Lemma SFsqrt_nn a : SFnn (SF64sqrt a).
Proof.
  destruct a as [[]|[]| |[] ma ea]; simpl; try exact I.
  unfold SF64sqrt, SFsqrt.
  destruct (SFsqrt_core_binary prec emax (Z.pos ma) ea) as [[mz ez] lz].
  apply binary_round_aux_nn.
Qed.





(** ** Rounding to an integer *)

Lemma round_half_even_nonneg m e : 0 <= m -> 0 <= Py.round_half_even m e.
Proof.
  intros Hm. unfold Py.round_half_even.
  destruct (0 <=? e) eqn:He.
  - apply Z.mul_nonneg_nonneg; [exact Hm|]. apply Z.pow_nonneg; lia.
  - assert (Hd : 0 < 2 ^ (- e)) by (apply Z.pow_pos_nonneg; lia).
    assert (Hq : 0 <= m / 2 ^ (- e)) by (apply Z.div_pos; lia).
    cbv zeta. destruct (2 * (m mod 2 ^ (- e)) ?= 2 ^ (- e)); try lia.
    destruct (Z.even _); lia.
Qed.

Lemma round_nn_nonneg x n : Py.round x = Ok n -> SFnn (Prim2SF x) -> 0 <= n.
Proof.
  unfold Py.round. destruct (Prim2SF x) as [s|s| |s m e]; try discriminate.
  - intros H _. inversion H; lia.
  - intros H Hs. destruct s; [contradiction|]. inversion H; subst. simpl.
    apply round_half_even_nonneg; lia.
Qed.

(** ** No NaN out of a non-negative mantissa *)

Lemma iter_pos_invariant {A : Type} (P : A -> Prop) (f : A -> A) :
  (forall x, P x -> P (f x)) -> forall n x, P x -> P (iter_pos f n x).
Proof.
  intros Hf. induction n as [n IH|n IH|]; simpl; intros x Hx; auto.
Qed.

Lemma shr_1_nonneg mrs : 0 <= shr_m mrs -> 0 <= shr_m (shr_1 mrs).
Proof.
  destruct mrs as [m r s]. simpl. destruct m as [|[p|p|]|[p|p|]]; simpl; lia.
Qed.

Lemma shr_nonneg mrs e n : 0 <= shr_m mrs -> 0 <= shr_m (fst (shr mrs e n)).
Proof.
  intros H. unfold shr. destruct n; simpl; auto.
  apply (iter_pos_invariant (fun r => 0 <= shr_m r)); auto using shr_1_nonneg.
Qed.

Lemma shr_fexp_nonneg m e l : 0 <= m -> 0 <= shr_m (fst (shr_fexp prec emax m e l)).
Proof.
  intros H. unfold shr_fexp. apply shr_nonneg.
  destruct l as [|[]]; simpl; exact H.
Qed.

Lemma round_nearest_even_nonneg m l : 0 <= m -> 0 <= round_nearest_even m l.
Proof.
  intros H. destruct l as [|[]]; simpl; try lia. destruct (Z.even m); lia.
Qed.

Lemma binary_round_aux_class sx mx ex lx :
  0 <= mx ->
  match binary_round_aux prec emax sx mx ex lx with
  | S754_zero s | S754_infinity s | S754_finite s _ _ => s = sx
  | S754_nan => False
  end.
Proof.
  intros Hm. unfold binary_round_aux.
  pose proof (shr_fexp_nonneg mx ex lx Hm) as H1.
  destruct (shr_fexp prec emax mx ex lx) as [mrs' e']. simpl in H1.
  pose proof (shr_fexp_nonneg _ e' loc_Exact
                (round_nearest_even_nonneg _ (loc_of_shr_record mrs') H1)) as H2.
  destruct (shr_fexp prec emax _ e' loc_Exact) as [mrs'' e'']. simpl in H2.
  destruct (shr_m mrs''); [reflexivity| |lia].
  destruct (e'' <=? emax - prec); reflexivity.
Qed.

Lemma binary_round_aux_ge0 mx ex lx :
  0 <= mx -> SFge0 (binary_round_aux prec emax false mx ex lx).
Proof.
  intros Hm. pose proof (binary_round_aux_class false mx ex lx Hm) as H.
  destruct (binary_round_aux prec emax false mx ex lx); subst; simpl; auto.
Qed.

Lemma binary_round_ge0 m e : SFge0 (binary_round prec emax false m e).
Proof.
  unfold binary_round.
  destruct (shl_align m e _) as [mz ez]. apply binary_round_aux_ge0. lia.
Qed.

Lemma binary_normalize_ge0 z e : 0 <= z -> SFge0 (binary_normalize prec emax z e false).
Proof.
  intros Hz. destruct z; simpl; [exact I | apply binary_round_ge0 | lia].
Qed.

Lemma SFldexp_ge0 f e : SFge0 f -> SFge0 (SFldexp prec emax f e).
Proof.
  destruct f as [s|s| |s m ex]; simpl; auto.
  destruct s; [contradiction|]. intros _. apply binary_round_ge0.
Qed.

(** [SF2Prim] does not lose the sign class, whatever the mantissa. *)
Lemma SF2Prim_ge0 y : SFge0 y -> SFge0 (Prim2SF (SF2Prim y)).
Proof.
  destruct y as [[]|[]| |[] m e]; simpl; try contradiction; intros _;
    try exact I.
  rewrite Z_ldexp_spec. apply SFldexp_ge0.
  rewrite of_uint63_spec. apply binary_normalize_ge0.
  apply Uint63.to_Z_bounded.
Qed.

(** ** Addition *)

Lemma binary_round_nn m e : SFnn (binary_round prec emax false m e).
Proof. apply SFge0_nn, binary_round_ge0. Qed.

Lemma SFadd_nn a b : SFnn a -> SFnn b -> SFnn (SF64add a b).
Proof.
  destruct a as [[]|[]| |[] ma ea], b as [[]|[]| |[] mb eb]; simpl;
    intros Ha Hb; try contradiction; try exact I.
  apply binary_round_nn.
Qed.

(** ** Ints as floats *)

Lemma SFfin0_ge0 f : SFfin0 f -> SFge0 f.
Proof. destruct f as [s|s| |s m e]; try destruct s; simpl; auto. Qed.

Lemma is_infinity_false_fin0 f :
  is_infinity f = false -> SFge0 (Prim2SF f) -> SFfin0 (Prim2SF f).
Proof.
  unfold is_infinity. rewrite eqb_spec, abs_spec.
  destruct (Prim2SF f) as [s|s| |s m e]; try destruct s; simpl; auto.
  intros H; discriminate H.
Qed.

Lemma float_of_int_fin0 z f :
  Py.float_of_int z = Ok f -> 0 <= z -> SFfin0 (Prim2SF f).
Proof.
  unfold Py.float_of_int. intros H Hz.
  destruct (is_infinity _) eqn:E; [discriminate|]. inversion H; subst.
  apply is_infinity_false_fin0; [exact E|].
  apply SF2Prim_ge0, binary_normalize_ge0, Hz.
Qed.

(** ** Division without NaN *)



(** ** round(x, ndigits) and max *)



(** ** The formulas are not negative *)

Lemma sqrt_Ok_nn x r : Py.sqrt x = Ok r -> SFnn (Prim2SF r).
Proof.
  unfold Py.sqrt. destruct (x <? 0)%float; [discriminate|].
  intros H; inversion H; subst. rewrite sqrt_spec. apply SFsqrt_nn.
Qed.

Lemma eoq_nonneg D S H q : eoq D S H = Ok q -> 0 <= q.
Proof.
  unfold eoq. destruct (H <=? 0)%float; [discriminate|].
  intros E. inv_bind E.
  eapply round_nn_nonneg; [exact E|]. eapply sqrt_Ok_nn; eauto.
Qed.

Lemma safety_stock_nonneg sd lt z dpm ss :
  fnonneg z -> fnonneg sd -> safety_stock sd lt z dpm = Ok ss -> 0 <= ss.
Proof.
  intros Hz Hsd E. unfold safety_stock in E. inv_bind E.
  eapply round_nn_nonneg; [exact E|].
  rewrite !mul_spec. apply SFmul_nn; [apply SFmul_nn|].
  - apply SFge0_nn, fnonneg_spec, Hz.
  - apply SFge0_nn, fnonneg_spec, Hsd.
  - eapply sqrt_Ok_nn; eauto.
Qed.

Lemma reorder_point_nonneg D wd lt ss rop :
  fnonneg D -> fpositive wd -> fnonneg lt -> 0 <= ss ->
  reorder_point D wd lt ss = Ok rop -> 0 <= rop.
Proof.
  intros HD Hwd Hlt Hss E. unfold reorder_point in E. inv_bind E.
  eapply round_nn_nonneg; [exact E|].
  rewrite add_spec, mul_spec. apply SFadd_nn; [apply SFmul_nn|].
  - unfold Py.truediv in E0. destruct (wd =? 0)%float; [discriminate|].
    inversion E0; subst. rewrite div_spec. apply SFdiv_nn.
    + apply SFge0_nn, fnonneg_spec, HD.
    + apply fpositive_spec, Hwd.
  - apply SFge0_nn, fnonneg_spec, Hlt.
  - apply SFge0_nn, SFfin0_ge0. eapply float_of_int_fin0; eauto.
Qed.






(* ================================================================== *)
(** * Rounding of binary64 sums, and the tier counts *)

(** ** Digits and shifts *)

Lemma digits2_pos_bounds (m : positive) :
  2 ^ (Z.pos (digits2_pos m) - 1) <= Z.pos m < 2 ^ Z.pos (digits2_pos m).
Proof.
  induction m as [m IH|m IH|]; simpl digits2_pos.
  - rewrite Pos2Z.inj_succ.
    replace (Z.succ (Z.pos (digits2_pos m)) - 1) with (Z.succ (Z.pos (digits2_pos m) - 1)) by lia.
    rewrite !Z.pow_succ_r by lia. lia.
  - rewrite Pos2Z.inj_succ.
    replace (Z.succ (Z.pos (digits2_pos m)) - 1) with (Z.succ (Z.pos (digits2_pos m) - 1)) by lia.
    rewrite !Z.pow_succ_r by lia. lia.
  - simpl. lia.
Qed.

(** The digit count is determined by the binade. *)
Lemma digits2_pos_unique (m : positive) (d : Z) :
  2 ^ (d - 1) <= Z.pos m < 2 ^ d -> Z.pos (digits2_pos m) = d.
Proof.
  intros [Hlo Hhi]. pose proof (digits2_pos_bounds m) as [Blo Bhi].
  set (k := Z.pos (digits2_pos m)) in *.
  assert (Hk : 0 < k) by (unfold k; lia).
  destruct (Z.lt_trichotomy k d) as [Hlt|[Heq|Hgt]]; [|exact Heq|].
  - assert (2 ^ k <= 2 ^ (d - 1)) by (apply Z.pow_le_mono_r; lia). lia.
  - destruct (Z.le_gt_cases d 0) as [Hd|Hd].
    + assert (2 ^ d <= 2 ^ 0) by (apply Z.pow_le_mono_r_iff; lia || (destruct (Z.ltb_spec d 0); [rewrite Z.pow_neg_r by lia|]; lia)).
      simpl in *. lia.
    + assert (2 ^ d <= 2 ^ (k - 1)) by (apply Z.pow_le_mono_r; lia). lia.
Qed.

(** The mantissa left by [shr_1]. *)
Lemma shr_1_m mrs : 0 <= shr_m mrs -> shr_m (shr_1 mrs) = shr_m mrs / 2.
Proof.
  destruct mrs as [m r s]. simpl. intros Hm.
  destruct m as [|[p|p|]|p]; cbn [shr_1 shr_m]; try lia; try reflexivity.
  - apply Z.div_unique with 1; lia.
  - apply Z.div_unique with 0; lia.
Qed.

Lemma pow2_xI (n : positive) : 2 ^ Z.pos n~1 = 2 * (2 ^ Z.pos n * 2 ^ Z.pos n).
Proof.
  rewrite Pos2Z.inj_xI, <- Z.pow_add_r, <- Z.pow_succ_r by lia. f_equal. lia.
Qed.

Lemma pow2_xO (n : positive) : 2 ^ Z.pos n~0 = 2 ^ Z.pos n * 2 ^ Z.pos n.
Proof.
  rewrite Pos2Z.inj_xO, <- Z.pow_add_r by lia. f_equal. lia.
Qed.

Lemma iter_pos_shr_1_m (n : positive) mrs :
  0 <= shr_m mrs ->
  0 <= shr_m (iter_pos shr_1 n mrs) /\
  shr_m (iter_pos shr_1 n mrs) = shr_m mrs / 2 ^ Z.pos n.
Proof.
  revert mrs. induction n as [n IH|n IH|]; intros mrs Hm; simpl iter_pos.
  - pose proof (shr_1_nonneg mrs Hm) as H1.
    destruct (IH _ H1) as (H2 & E2). destruct (IH _ H2) as (H3 & E3).
    split; [exact H3|]. rewrite E3, E2, shr_1_m by exact Hm.
    rewrite !Z.div_div by (try apply Z.pow_pos_nonneg; lia).
    f_equal. rewrite pow2_xI. lia.
  - destruct (IH _ Hm) as (H2 & E2). destruct (IH _ H2) as (H3 & E3).
    split; [exact H3|]. rewrite E3, E2.
    rewrite !Z.div_div by (try apply Z.pow_pos_nonneg; lia).
    f_equal. rewrite pow2_xO. lia.
  - split; [apply shr_1_nonneg; exact Hm|]. rewrite shr_1_m by exact Hm. reflexivity.
Qed.

(** ** What [binary_round] returns *)

Lemma fexp_eq x : fexp prec emax x = Z.max (x - 53) (-1074).
Proof. reflexivity. Qed.

Lemma shr_fexp_pos (p : positive) (e : Z) (l : location) :
  let t := fexp prec emax (Z.pos (digits2_pos p) + e) in
  (t <= e -> shr_fexp prec emax (Z.pos p) e l = (shr_record_of_loc (Z.pos p) l, e)) /\
  (e < t -> exists mrs, shr_fexp prec emax (Z.pos p) e l = (mrs, t) /\
                        shr_m mrs = Z.pos p / 2 ^ (t - e)).
Proof.
  intros t. unfold shr_fexp, shr. cbn [Zdigits2]. fold t.
  destruct (t - e) as [|n|n] eqn:En; split; intros H; try lia; try reflexivity.
  eexists. split.
  - f_equal. lia.
  - assert (Hm : 0 <= shr_m (shr_record_of_loc (Z.pos p) l))
      by (destruct l as [|[]]; simpl; lia).
    destruct (iter_pos_shr_1_m n _ Hm) as (_ & ->).
    destruct l as [|[]]; reflexivity.
Qed.

Lemma round_nearest_even_cases m l :
  round_nearest_even m l = m \/ round_nearest_even m l = m + 1.
Proof.
  destruct l as [|[]]; simpl; auto. destruct (Z.even m); auto.
Qed.

Lemma shr_m_of_loc m l : shr_m (shr_record_of_loc m l) = m.
Proof. destruct l as [|[]]; reflexivity. Qed.

Lemma iter_xO_value (m d : positive) :
  Z.pos (Pos.iter xO m d) = Z.pos m * 2 ^ Z.pos d.
Proof.
  induction d as [|d IH] using Pos.peano_ind.
  - simpl. lia.
  - rewrite Pos.iter_succ, Pos2Z.inj_xO, IH, Pos2Z.inj_succ, Z.pow_succ_r by lia. lia.
Qed.

Lemma iter_xO_digits (m d : positive) :
  Z.pos (digits2_pos (Pos.iter xO m d)) = Z.pos (digits2_pos m) + Z.pos d.
Proof.
  induction d as [|d IH] using Pos.peano_ind.
  - simpl. lia.
  - rewrite Pos.iter_succ. cbn [digits2_pos]. rewrite Pos2Z.inj_succ, IH. lia.
Qed.

(** [binary_round_aux] on an input already at its target exponent. *)
Lemma binary_round_aux_exact (p : positive) (e : Z) :
  fexp prec emax (Z.pos (digits2_pos p) + e) = e ->
  binary_round_aux prec emax false (Z.pos p) e loc_Exact
  = if e <=? emax - prec then S754_finite false p e else S754_infinity false.
Proof.
  intros Ht. unfold binary_round_aux.
  destruct (shr_fexp_pos p e loc_Exact) as (H1 & _).
  rewrite H1 by lia. cbn [shr_record_of_loc shr_m loc_of_shr_record round_nearest_even].
  rewrite H1 by lia. reflexivity.
Qed.

(** [binary_round_aux] on an input below its target exponent: the
    mantissa is cut to 53 digits and possibly incremented. *)
Lemma binary_round_aux_shift (p : positive) (e : Z) :
  -1074 <= e ->
  let t := fexp prec emax (Z.pos (digits2_pos p) + e) in
  e < t ->
  exists (m' : positive) (e' : Z),
    binary_round_aux prec emax false (Z.pos p) e loc_Exact
    = (if e' <=? emax - prec then S754_finite false m' e' else S754_infinity false) /\
    fexp prec emax (Z.pos (digits2_pos m') + e') = e' /\
    t <= e' /\
    Z.pos p / 2 ^ (t - e) <= Z.pos m' * 2 ^ (e' - t).
Proof.
  intros He t Ht.
  pose proof (digits2_pos_bounds p) as [Dlo Dhi].
  set (d := Z.pos (digits2_pos p)) in *.
  assert (Et : t = d + e - 53) by (unfold t in *; rewrite fexp_eq in *; lia).
  assert (Hn : t - e = d - 53) by lia.
  assert (Hd : 53 < d) by lia.
  set (m1 := Z.pos p / 2 ^ (t - e)).
  assert (Hm1 : 2 ^ 52 <= m1 < 2 ^ 53).
  { unfold m1. rewrite Hn.
    assert (0 < 2 ^ (d - 53)) by (apply Z.pow_pos_nonneg; lia).
    split.
    - apply Z.div_le_lower_bound; [lia|].
      rewrite <- Z.pow_add_r by lia. replace (d - 53 + 52) with (d - 1) by lia. exact Dlo.
    - apply Z.div_lt_upper_bound; [lia|].
      rewrite <- Z.pow_add_r by lia. replace (d - 53 + 53) with d by lia. exact Dhi. }
  unfold binary_round_aux.
  destruct (shr_fexp_pos p e loc_Exact) as (_ & H2).
  destruct (H2 Ht) as (mrs & Hshr & Hmrs).
  change (shr_fexp prec emax (Z.pos p) e loc_Exact = (mrs, t)) in Hshr.
  change (shr_m mrs = m1) in Hmrs. rewrite Hshr.
  set (m2 := round_nearest_even (shr_m mrs) (loc_of_shr_record mrs)).
  assert (Hm2 : m2 = m1 \/ m2 = m1 + 1)
    by (unfold m2; rewrite <- Hmrs; apply round_nearest_even_cases).
  assert (Hpos : 0 < m2) by (change (2 ^ 52) with 4503599627370496 in Hm1; lia).
  destruct m2 as [|p2|p2] eqn:Ep2; try lia.
  destruct (Z.eq_dec (Z.pos p2) (2 ^ 53)) as [Htop|Hntop].
  - (* the increment carried into a 54th digit *)
    assert (D2 : Z.pos (digits2_pos p2) = 54).
    { apply digits2_pos_unique. rewrite Htop. simpl. lia. }
    destruct (shr_fexp_pos p2 t loc_Exact) as (_ & H3).
    assert (T2 : fexp prec emax (Z.pos (digits2_pos p2) + t) = t + 1)
      by (rewrite D2, fexp_eq; lia).
    assert (Hlt : t < fexp prec emax (Z.pos (digits2_pos p2) + t)) by (rewrite T2; lia).
    destruct (H3 Hlt) as (mrs2 & Hshr2 & Hmrs2). rewrite Hshr2.
    rewrite T2 in Hmrs2 |- *.
    replace (t + 1 - t) with 1 in Hmrs2 by lia.
    rewrite Htop in Hmrs2. change (2 ^ 53 / 2 ^ 1) with (Z.pos 4503599627370496) in Hmrs2.
    rewrite Hmrs2. exists 4503599627370496%positive, (t + 1).
    split; [reflexivity|].
    split; [rewrite fexp_eq; change (Z.pos (digits2_pos 4503599627370496)) with 53; lia|].
    split; [lia|].
    replace (t + 1 - t) with 1 by lia.
    change (2 ^ 53) with 9007199254740992 in *. lia.
  - assert (D2 : Z.pos (digits2_pos p2) = 53).
    { apply digits2_pos_unique. change (2 ^ (53 - 1)) with (2 ^ 52). lia. }
    destruct (shr_fexp_pos p2 t loc_Exact) as (H3 & _).
    assert (T2 : fexp prec emax (Z.pos (digits2_pos p2) + t) = t)
      by (rewrite D2, fexp_eq; lia).
    assert (Hle : fexp prec emax (Z.pos (digits2_pos p2) + t) <= t) by (rewrite T2; lia).
    rewrite (H3 Hle).
    cbn [shr_record_of_loc shr_m].
    exists p2, t. split; [reflexivity|]. split; [exact T2|]. split; [lia|].
    rewrite Z.sub_diag. simpl. lia.
Qed.

(** A finite result of [binary_round] on [M * 2^e], [e] not below the
    least exponent, is a valid float; it is exact when the target
    exponent [t] is not above [e], and otherwise not below [M * 2^e]
    truncated to a multiple of [2^t]. *)
Lemma binary_round_cases (M : positive) (e : Z) :
  -1074 <= e ->
  let t := fexp prec emax (Z.pos (digits2_pos M) + e) in
  match binary_round prec emax false M e with
  | S754_finite s m' e' =>
      s = false /\ bounded prec emax m' e' = true /\ t <= e' /\
      (t <= e -> e' = t /\ Z.pos m' = Z.pos M * 2 ^ (e - t)) /\
      (e < t -> Z.pos M / 2 ^ (t - e) <= Z.pos m' * 2 ^ (e' - t))
  | S754_infinity s => s = false
  | _ => False
  end.
Proof.
  intros He t. unfold binary_round. fold t.
  pose proof (digits2_pos_bounds M) as [Dlo Dhi].
  unfold shl_align.
  destruct (t - e) as [|n|n] eqn:En.
  - (* already aligned *)
    assert (t = e) by lia. subst t.
    rewrite binary_round_aux_exact by lia.
    destruct (e <=? emax - prec) eqn:Hb; [|reflexivity].
    split; [reflexivity|]. split.
    { unfold bounded, canonical_mantissa. rewrite Hb. rewrite H, Z.eqb_refl. reflexivity. }
    split; [lia|]. split; [|lia].
    intros _. split; [lia|]. rewrite H, Z.sub_diag. simpl. lia.
  - (* the exponent is below the target: rounding *)
    assert (Ht : e < t) by lia.
    destruct (binary_round_aux_shift M e He Ht) as (m' & e' & -> & Hc & Hle & Hv).
    fold t in Hle, Hv.
    destruct (e' <=? emax - prec) eqn:Hb; [|reflexivity].
    split; [reflexivity|]. split.
    { unfold bounded, canonical_mantissa. rewrite Hb, Hc, Z.eqb_refl. reflexivity. }
    split; [exact Hle|]. split; [lia|]. intros _. rewrite <- En. exact Hv.
  - (* the exponent is above the target: the mantissa is shifted left *)
    assert (Ht : t < e) by lia.
    assert (Hdig : fexp prec emax (Z.pos (digits2_pos (Pos.iter xO M n)) + t) = t).
    { rewrite iter_xO_digits. replace (Z.pos (digits2_pos M) + Z.pos n + t)
        with (Z.pos (digits2_pos M) + e) by lia. reflexivity. }
    rewrite binary_round_aux_exact by exact Hdig.
    destruct (t <=? emax - prec) eqn:Hb; [|reflexivity].
    split; [reflexivity|]. split.
    { unfold bounded, canonical_mantissa. rewrite Hb, Hdig, Z.eqb_refl. reflexivity. }
    split; [lia|]. split; [|lia].
    intros _. split; [reflexivity|]. rewrite iter_xO_value. f_equal. f_equal. lia.
Qed.

(** ** Values, scaled by [2^1074] so that they are integers *)

Lemma pow2_pos n : 0 <= n -> 0 < 2 ^ n.
Proof. intros; apply Z.pow_pos_nonneg; lia. Qed.

Lemma pow2_split a b : 0 <= a -> 0 <= b -> 2 ^ (a + b) = 2 ^ a * 2 ^ b.
Proof. intros; apply Z.pow_add_r; lia. Qed.

(** The result of [binary_round] is not below the input truncated to a
    multiple of the target unit. *)
Lemma binary_round_floor (M : positive) (e : Z) (m' : positive) (e' : Z) s :
  -1074 <= e ->
  binary_round prec emax false M e = S754_finite s m' e' ->
  let t := fexp prec emax (Z.pos (digits2_pos M) + e) in
  s = false /\ bounded prec emax m' e' = true /\
  scaled M e / 2 ^ (t + 1074) * 2 ^ (t + 1074) <= scaled m' e'.
Proof.
  intros He Hr t. pose proof (binary_round_cases M e He) as H.
  rewrite Hr in H. fold t in H. destruct H as (Hs & Hb & Hle & Hex & Hsh).
  split; [exact Hs|]. split; [exact Hb|].
  assert (Ht : -1074 <= t) by (unfold t; rewrite fexp_eq; lia).
  unfold scaled.
  destruct (Z.le_gt_cases t e) as [Hte|Hte].
  - destruct (Hex Hte) as (-> & ->).
    rewrite <- Z.mul_assoc, <- pow2_split by lia.
    replace (e - t + (t + 1074)) with (e + 1074) by lia.
    rewrite Z.mul_comm. apply Z.mul_div_le. apply pow2_pos; lia.
  - specialize (Hsh Hte).
    replace (t + 1074) with ((t - e) + (e + 1074)) at 1 by lia.
    rewrite (pow2_split (t - e) (e + 1074)) by lia.
    rewrite Z.div_mul_cancel_r by (pose proof (pow2_pos (t - e)); pose proof (pow2_pos (e + 1074)); lia).
    replace (e' + 1074) with ((e' - t) + (t + 1074)) by lia.
    rewrite (pow2_split (e' - t) (t + 1074)) by lia. rewrite Z.mul_assoc.
    apply Z.mul_le_mono_nonneg_r; [|exact Hsh].
    pose proof (pow2_pos (t + 1074)); lia.
Qed.

Lemma fexp_mono a b : a <= b -> fexp prec emax a <= fexp prec emax b.
Proof. rewrite !fexp_eq. lia. Qed.

(** Rounding does not go below a float that the exact value is not below. *)
Lemma binary_round_lower_bound (M : positive) (e : Z) (m' : positive) (e' : Z) s
      (mb : positive) (eb : Z) :
  -1074 <= e ->
  binary_round prec emax false M e = S754_finite s m' e' ->
  fexp prec emax (Z.pos (digits2_pos mb) + eb) = eb ->
  scaled mb eb <= scaled M e ->
  scaled mb eb <= scaled m' e'.
Proof.
  intros He Hr Hcan Hle.
  destruct (binary_round_floor M e m' e' s He Hr) as (_ & _ & Hfl).
  set (d := Z.pos (digits2_pos M)) in *.
  set (db := Z.pos (digits2_pos mb)) in *.
  set (t := fexp prec emax (d + e)) in *.
  assert (Ht : -1074 <= t) by (unfold t; rewrite fexp_eq; lia).
  assert (Heb : -1074 <= eb) by (rewrite <- Hcan, fexp_eq; lia).
  pose proof (digits2_pos_bounds M) as [Dlo Dhi]. fold d in Dlo, Dhi.
  pose proof (digits2_pos_bounds mb) as [Blo Bhi]. fold db in Blo, Bhi.
  assert (Hd : 0 < d) by (unfold d; lia).
  assert (Hdb : 0 < db) by (unfold db; lia).
  pose proof (pow2_pos (t + 1074) ltac:(lia)) as HT.
  eapply Z.le_trans; [|exact Hfl].
  destruct (Z.le_gt_cases t eb) as [Hteb|Hteb].
  - (* [b] is a multiple of the target unit *)
    assert (Hb : scaled mb eb = Z.pos mb * 2 ^ (eb - t) * 2 ^ (t + 1074)).
    { unfold scaled. rewrite <- Z.mul_assoc, <- pow2_split by lia.
      f_equal. f_equal. lia. }
    rewrite Hb. apply Z.mul_le_mono_nonneg_r; [lia|].
    apply Z.div_le_lower_bound; [lia|]. rewrite Z.mul_comm, <- Hb. exact Hle.
  - (* the exact value is in a higher binade than [b] *)
    assert (Hmag : db + eb <= d + e - 1).
    { destruct (Z.le_gt_cases (d + e) (db + eb)) as [Hc|Hc]; [|lia].
      apply fexp_mono in Hc. fold t in Hc. rewrite Hcan in Hc. lia. }
    assert (Htd : t <= d + e - 1) by (unfold t; rewrite fexp_eq; lia).
    set (P := 2 ^ (d + e - 1 - t) * 2 ^ (t + 1074)).
    assert (HP : P = 2 ^ (d + e - 1 + 1074)).
    { unfold P. rewrite <- pow2_split by lia. f_equal. lia. }
    assert (HPX : P <= scaled M e).
    { rewrite HP. unfold scaled.
      replace (d + e - 1 + 1074) with ((d - 1) + (e + 1074)) by lia.
      rewrite pow2_split by lia.
      apply Z.mul_le_mono_nonneg_r; [pose proof (pow2_pos (e + 1074)); lia | exact Dlo]. }
    assert (HBP : scaled mb eb <= P).
    { rewrite HP. unfold scaled.
      apply Z.le_trans with (2 ^ db * 2 ^ (eb + 1074)).
      - apply Z.mul_le_mono_nonneg_r; [pose proof (pow2_pos (eb + 1074)); lia | lia].
      - rewrite <- pow2_split by lia. apply Z.pow_le_mono_r; lia. }
    eapply Z.le_trans; [exact HBP|].
    unfold P. apply Z.mul_le_mono_nonneg_r; [lia|].
    apply Z.div_le_lower_bound; [lia|]. rewrite Z.mul_comm. exact HPX.
Qed.

(** ** Adding to a float does not round below it *)

Lemma shl_align_value (m : positive) (e ez : Z) :
  ez <= e -> Z.pos (fst (shl_align m e ez)) = Z.pos m * 2 ^ (e - ez).
Proof.
  intros H. unfold shl_align.
  destruct (ez - e) as [|d|d] eqn:E; simpl fst; try lia.
  - replace (e - ez) with 0 by lia. simpl. lia.
  - rewrite iter_xO_value. f_equal. f_equal. lia.
Qed.

Lemma canonical_exponent (m : positive) (e : Z) :
  bounded prec emax m e = true ->
  fexp prec emax (Z.pos (digits2_pos m) + e) = e /\ -1074 <= e.
Proof.
  unfold bounded, canonical_mantissa. intros H.
  apply andb_prop in H. destruct H as (H & _). apply Z.eqb_eq in H.
  split; [exact H|]. rewrite <- H, fexp_eq. lia.
Qed.

Lemma SFadd_finite_lower (mx : positive) (ex : Z) (mb : positive) (eb : Z) :
  bounded prec emax mx ex = true -> bounded prec emax mb eb = true ->
  match SF64add (S754_finite false mx ex) (S754_finite false mb eb) with
  | S754_finite s m' e' =>
      s = false /\ bounded prec emax m' e' = true /\ scaled mb eb <= scaled m' e'
  | S754_infinity s => s = false
  | _ => False
  end.
Proof.
  intros Hx Hb.
  destruct (canonical_exponent _ _ Hx) as (_ & Hex).
  destruct (canonical_exponent _ _ Hb) as (Hcb & Heb).
  unfold SF64add, SFadd. cbn [cond_Zopp].
  set (ez := Z.min ex eb).
  set (ax := fst (shl_align mx ex ez)). set (ab := fst (shl_align mb eb ez)).
  assert (Hax : Z.pos ax = Z.pos mx * 2 ^ (ex - ez)) by (apply shl_align_value; unfold ez; lia).
  assert (Hab : Z.pos ab = Z.pos mb * 2 ^ (eb - ez)) by (apply shl_align_value; unfold ez; lia).
  change (Z.pos ax + Z.pos ab) with (Z.pos (ax + ab)). cbn [binary_normalize].
  assert (Hez : -1074 <= ez) by (unfold ez; lia).
  pose proof (binary_round_cases (ax + ab) ez Hez) as Hc.
  destruct (binary_round prec emax false (ax + ab) ez) as [s|s| |s m' e'] eqn:Hr;
    try contradiction; [exact Hc|].
  destruct Hc as (Hs & Hbd & _).
  split; [exact Hs|]. split; [exact Hbd|].
  eapply binary_round_lower_bound; [exact Hez | exact Hr | exact Hcb |].
  unfold scaled. rewrite Pos2Z.inj_add, Hax, Hab.
  assert (E : Z.pos mb * 2 ^ (eb + 1074) = Z.pos mb * 2 ^ (eb - ez) * 2 ^ (ez + 1074)).
  { rewrite <- Z.mul_assoc, <- pow2_split by (unfold ez; lia). f_equal. f_equal. lia. }
  rewrite E.
  apply Z.mul_le_mono_nonneg_r; [pose proof (pow2_pos (ez + 1074)); lia|].
  pose proof (pow2_pos (ex - ez) ltac:(unfold ez; lia)). nia.
Qed.

(** ** Rounding to an integer does not go below an integer *)

Lemma round_half_even_floor (m e : Z) :
  0 <= m -> e < 0 -> m / 2 ^ (- e) <= Py.round_half_even m e.
Proof.
  intros Hm He. unfold Py.round_half_even.
  destruct (Z.leb_spec 0 e); [lia|]. cbv zeta.
  destruct (2 * (m mod 2 ^ (- e)) ?= 2 ^ (- e)); try lia.
  destruct (Z.even _); lia.
Qed.

Lemma round_half_even_lower (k : Z) (m : positive) (e : Z) :
  -1074 <= e -> k * 2 ^ 1074 <= scaled m e -> k <= Py.round_half_even (Z.pos m) e.
Proof.
  intros He H. unfold scaled in H.
  destruct (Z.le_gt_cases 0 e) as [Hpos|Hneg].
  - unfold Py.round_half_even. destruct (Z.leb_spec 0 e); [|lia].
    rewrite (pow2_split e 1074), Z.mul_assoc in H by lia.
    apply Z.mul_le_mono_pos_r in H; [exact H | apply pow2_pos; lia].
  - eapply Z.le_trans; [|apply round_half_even_floor; lia].
    apply Z.div_le_lower_bound; [apply pow2_pos; lia|].
    replace 1074 with ((- e) + (e + 1074)) in H at 1 by lia.
    rewrite (pow2_split (- e) (e + 1074)), Z.mul_assoc in H by lia.
    apply Z.mul_le_mono_pos_r in H; [lia | apply pow2_pos; lia].
Qed.

(** ** Integers that a float holds exactly *)

Lemma digits2_pos_le (p : positive) (n : Z) :
  Z.pos p < 2 ^ n -> Z.pos (digits2_pos p) <= n.
Proof.
  intros H. pose proof (digits2_pos_bounds p) as [Lo _].
  destruct (Z.le_gt_cases (Z.pos (digits2_pos p)) n) as [|Hgt]; [assumption|].
  assert (2 ^ n <= 2 ^ (Z.pos (digits2_pos p) - 1)).
  { destruct (Z.le_gt_cases 0 n).
    - apply Z.pow_le_mono_r; lia.
    - rewrite (Z.pow_neg_r 2 n) by lia. apply Z.pow_nonneg. lia. }
  lia.
Qed.

(** What [round] returns is representable. *)
Lemma round_representable (f : float) (p : positive) :
  Py.round f = Ok (Z.pos p) -> representable p.
Proof.
  unfold Py.round. pose proof (Prim2SF_valid f) as Hv.
  destruct (Prim2SF f) as [s|s| |s m e]; try discriminate.
  intros H. inversion H as [E]. clear H.
  pose proof (round_half_even_nonneg (Z.pos m) e ltac:(lia)) as Hnn.
  destruct s; simpl in E; [lia|].
  simpl in Hv. destruct (canonical_exponent _ _ Hv) as (Hc & He).
  pose proof (digits2_pos_bounds m) as [Mlo Mhi].
  set (d := Z.pos (digits2_pos m)) in *.
  rewrite fexp_eq in Hc.
  destruct (Z.le_gt_cases 0 e) as [Hpos|Hneg].
  - (* an integral float: [round] returns its value *)
    assert (Ep : Z.pos p = Z.pos m * 2 ^ e).
    { rewrite <- E. unfold Py.round_half_even. destruct (Z.leb_spec 0 e); lia. }
    assert (Hd : d = 53) by lia.
    assert (Dp : Z.pos (digits2_pos p) = 53 + e).
    { apply digits2_pos_unique. rewrite Ep. rewrite Hd in Mlo, Mhi.
      replace (53 + e - 1) with (52 + e) by lia.
      rewrite !pow2_split by lia. pose proof (pow2_pos e Hpos).
      change (53 - 1) with 52 in Mlo. nia. }
    exists (Z.pos m). rewrite Dp, fexp_eq, Ep.
    replace (Z.max (53 + e - 53) (-1074)) with e by lia.
    rewrite <- Z.mul_assoc, <- pow2_split by lia. reflexivity.
  - (* a float with a fraction: the result is below [2^53] *)
    assert (Hd : d <= 53) by lia.
    assert (Hm : Z.pos m < 2 ^ 53).
    { eapply Z.lt_le_trans; [exact Mhi|]. apply Z.pow_le_mono_r; lia. }
    assert (Hq : Z.pos m / 2 ^ (- e) <= 2 ^ 52 - 1).
    { assert (Z.pos m / 2 ^ (- e) < 2 ^ 52); [|lia].
      apply Z.div_lt_upper_bound; [apply pow2_pos; lia|].
      assert (2 ^ 1 <= 2 ^ (- e)) by (apply Z.pow_le_mono_r; lia).
      change (2 ^ 53) with (2 * 2 ^ 52) in Hm. change (2 ^ 1) with 2 in *.
      pose proof (pow2_pos 52). nia. }
    assert (Hp : Z.pos p <= Z.pos m / 2 ^ (- e) + 1).
    { rewrite <- E. unfold Py.round_half_even. destruct (Z.leb_spec 0 e); [lia|].
      cbv zeta. destruct (2 * (Z.pos m mod 2 ^ (- e)) ?= 2 ^ (- e)); try lia.
      destruct (Z.even _); lia. }
    assert (Dp : Z.pos (digits2_pos p) <= 53).
    { apply digits2_pos_le. change (2 ^ 53) with (2 * 2 ^ 52).
      pose proof (pow2_pos 52). lia. }
    set (t := fexp prec emax (Z.pos (digits2_pos p))).
    assert (Ht : -1074 <= t <= 0) by (unfold t; rewrite fexp_eq; lia).
    exists (Z.pos p * 2 ^ (- t)).
    rewrite <- Z.mul_assoc, <- pow2_split by lia. f_equal. f_equal. lia.
Qed.

Lemma Prim2SF_infinity : Prim2SF infinity = S754_infinity false.
Proof. reflexivity. Qed.

(** A representable positive int converts to a float that is not below it. *)
Lemma float_of_int_lower (p : positive) (s : float) :
  representable p -> Py.float_of_int (Z.pos p) = Ok s ->
  exists mb eb, Prim2SF s = S754_finite false mb eb /\
                bounded prec emax mb eb = true /\
                Z.pos p * 2 ^ 1074 <= scaled mb eb.
Proof.
  intros (k & Hk). unfold Py.float_of_int. cbn [binary_normalize].
  pose proof (binary_round_cases p 0 ltac:(lia)) as Hc.
  destruct (binary_round prec emax false p 0) as [s0|s0| |s0 mb eb] eqn:Hr;
    try contradiction.
  - simpl in Hc. subst s0. cbn [SF2Prim]. intros H. exfalso. revert H.
    change (is_infinity infinity) with true. discriminate.
  - destruct Hc as (Hs0 & Hb & _). subst s0.
    rewrite <- Hr. intros H.
    destruct (is_infinity _); [discriminate|]. inversion H; subst s. clear H.
    rewrite Hr. rewrite Prim2SF_SF2Prim by exact Hb.
    exists mb, eb. split; [reflexivity|]. split; [exact Hb|].
    destruct (binary_round_floor p 0 mb eb false ltac:(lia) Hr) as (_ & _ & Hfl).
    eapply Z.le_trans; [|exact Hfl].
    replace (Z.add (Z.pos (digits2_pos p)) 0) with (Z.pos (digits2_pos p)) by lia.
    unfold scaled. replace (0 + 1074) with 1074 by lia. rewrite Hk.
    rewrite Z.div_mul; [lia|].
    assert (0 < 2 ^ (fexp prec emax (Z.pos (digits2_pos p)) + 1074)); [|lia].
    apply pow2_pos. rewrite fexp_eq. lia.
Qed.

(** ** The reorder point is not below the safety stock *)

Lemma round_add_lower (x s : float) (p : positive) (rop : Z) :
  SFnn (Prim2SF x) -> representable p ->
  Py.float_of_int (Z.pos p) = Ok s ->
  Py.round (x + s)%float = Ok rop -> Z.pos p <= rop.
Proof.
  intros Hx Hp Hs Hr.
  destruct (float_of_int_lower p s Hp Hs) as (mb & eb & Es & Hb & Hle).
  destruct (canonical_exponent _ _ Hb) as (_ & Heb).
  unfold Py.round in Hr. rewrite add_spec, Es in Hr.
  pose proof (Prim2SF_valid x) as Hv.
  destruct (Prim2SF x) as [sx|sx| |sx mx ex]; try destruct sx; try contradiction;
    simpl in Hv.
  - simpl in Hr. inversion Hr. apply round_half_even_lower; assumption.
  - simpl in Hr. inversion Hr. apply round_half_even_lower; assumption.
  - simpl in Hr. discriminate.
  - simpl in Hr. discriminate.
  - pose proof (SFadd_finite_lower mx ex mb eb Hv Hb) as Ha.
    destruct (SF64add _ _) as [s'|s'| |s' m' e']; try contradiction; try discriminate.
    destruct Ha as (-> & Hb' & Hle').
    destruct (canonical_exponent _ _ Hb') as (_ & He').
    inversion Hr. simpl. apply round_half_even_lower; [exact He' | lia].
Qed.

Lemma reorder_point_ge_safety_stock (D wd lt : float) (f : float) (ss rop : Z) :
  fnonneg D -> fpositive wd -> fnonneg lt ->
  Py.round f = Ok ss -> 0 <= ss ->
  reorder_point D wd lt ss = Ok rop -> ss <= rop.
Proof.
  intros HD Hwd Hlt Hf Hss E.
  destruct ss as [|p|p]; [|clear Hss|lia].
  - exact (reorder_point_nonneg _ _ _ _ _ HD Hwd Hlt Hss E).
  - unfold reorder_point in E. inv_bind E.
    eapply round_add_lower; [|eapply round_representable; exact Hf|exact E1|exact E].
    rewrite mul_spec. apply SFmul_nn.
    + unfold Py.truediv in E0. destruct (wd =? 0)%float; [discriminate|].
      inversion E0; subst. rewrite div_spec. apply SFdiv_nn.
      * apply SFge0_nn, fnonneg_spec, HD.
      * apply fpositive_spec, Hwd.
    + apply SFge0_nn, fnonneg_spec, Hlt.
Qed.

(** ** Counting the tiers *)

Lemma count_rows_cons p m l :
  count_rows p (m :: l) = (if p m then 1 else 0) + count_rows p l.
Proof.
  unfold count_rows. simpl. destruct (p m); simpl List.length; lia.
Qed.

Lemma count_rows_ext p q l :
  Forall (fun m => p m = q m) l -> count_rows p l = count_rows q l.
Proof.
  induction 1 as [|m l Hm _ IH]; [reflexivity|].
  rewrite !count_rows_cons, Hm, IH. reflexivity.
Qed.

Lemma count_rows_nonneg p l : 0 <= count_rows p l.
Proof. unfold count_rows. lia. Qed.

Lemma consistent_row_masks (m : Metrics.row) :
  consistent_row m ->
  is_critical m = labelled CRITICAL m /\
  is_reorder m = labelled REORDER m /\
  is_excess m = labelled EXCESS m /\
  (if is_critical m then 1 else 0) + (if is_reorder m then 1 else 0)
  + (if is_excess m then 1 else 0) + (if labelled HEALTHY m then 1 else 0) = 1.
Proof.
  intros (He & Hs & Hx).
  unfold is_critical, is_reorder, is_excess, labelled, classify_alert.
  rewrite Hx.
  destruct (Z.ltb_spec (Metrics.Current_Stock m) (Metrics.Safety_Stock m));
    destruct (Z.ltb_spec (Metrics.Current_Stock m) (Metrics.Reorder_Point m));
    destruct (Z.geb_spec (Metrics.Current_Stock m) (Metrics.Safety_Stock m));
    destruct (Z.gtb_spec
                (Z.max 0 (Metrics.Current_Stock m
                          - (Metrics.Reorder_Point m + Metrics.EOQ_Units m))) 0);
    simpl; try lia; auto.
Qed.

Lemma consistent_rows_partition (l : list Metrics.row) :
  Forall consistent_row l ->
  count_rows is_critical l + count_rows is_reorder l + count_rows is_excess l
  + count_rows (labelled HEALTHY) l = Z.of_nat (List.length l).
Proof.
  induction 1 as [|m l Hm _ IH]; [reflexivity|].
  rewrite !count_rows_cons. simpl List.length. rewrite Nat2Z.inj_succ.
  destruct (consistent_row_masks m Hm) as (_ & _ & _ & H1). lia.
Qed.

Lemma pipeline_rows_consistent (cfg : Params) (params_df : list Input.row)
      (out : list Metrics.row) :
  fnonneg (z_score cfg) -> fnonneg (lead_time_days cfg) ->
  fpositive (working_days cfg) ->
  Forall (fun r => fnonneg (Input.Annual_Demand r) /\
                   fnonneg (Input.Demand_StdDev r)) params_df ->
  run_optimization cfg params_df = Ok out ->
  Forall consistent_row out.
Proof.
  intros Hz Hlt Hwd Hrows Hrun. apply Forall_forall. intros m Hin.
  destruct (run_optimization_In _ _ _ _ Hrun Hin) as (r & Hr & Hrow).
  rewrite Forall_forall in Hrows. destruct (Hrows r Hr) as (HD & Hsd).
  apply optimization_row_Ok in Hrow.
  destruct Hrow as (eq & ss & rop & Heoq & Hss & Hrop & _ & _ & He & Hs & Hp & Hc & Hx & _).
  unfold consistent_row. rewrite He, Hs, Hp, Hc, Hx.
  split; [eapply eoq_nonneg; exact Heoq|]. split; [|reflexivity].
  pose proof (safety_stock_nonneg _ _ _ _ _ Hz Hsd Hss) as H0.
  unfold safety_stock in Hss. inv_bind Hss.
  exact (reorder_point_ge_safety_stock _ _ _ _ _ _ HD Hwd Hlt Hss H0 Hrop).
Qed.




(* ================================================================== *)
(** * The row loop, row by row *)

Lemma mapM_app {A B : Type} (f : A -> result B) (xs ys : list A) :
  mapM f (xs ++ ys) = (a <- mapM f xs ;; b <- mapM f ys ;; Ok (a ++ b)).
Proof.
  induction xs as [|x xs IH]; simpl.
  - destruct (mapM f ys); reflexivity.
  - destruct (f x) as [y|e]; simpl; [|reflexivity]. rewrite IH.
    destruct (mapM f xs) as [a|e]; simpl; [|reflexivity].
    destruct (mapM f ys) as [b|e]; reflexivity.
Qed.

Lemma optimization_row_copies (cfg : Params) (r : Input.row) (m : Metrics.row) :
  optimization_row cfg r = Ok m -> copies_input r m.
Proof.
  unfold optimization_row; intros H; inv_bind H.
  inversion H; subst; clear H. repeat split.
Qed.

(** X1: a successful run returns one output row per input row, in input
    order, and each output row carries its input row's category, unit
    cost, annual demand, demand standard deviation and current stock
    unchanged. *)
Theorem run_optimization_keeps_rows :
  forall (cfg : Params) (params_df : list Input.row) (out : list Metrics.row),
    run_optimization cfg params_df = Ok out ->
    Forall2 copies_input params_df out /\
    List.length out = List.length params_df /\
    map Metrics.Category out = map Input.Category params_df.
Proof.
  intros cfg params_df out H. unfold run_optimization in H.
  apply mapM_Ok_Forall2 in H.
  assert (F : Forall2 copies_input params_df out).
  { induction H as [|r m l l' Hrm _ IH]; constructor; [|exact IH].
    eapply optimization_row_copies; exact Hrm. }
  split; [exact F|]. split.
  - symmetry. eapply Forall2_length; exact F.
  - clear H. induction F as [|r m l l' Hrm _ IH]; simpl; [reflexivity|].
    destruct Hrm as (-> & _). rewrite IH. reflexivity.
Qed.

Lemma run_optimization_keeps_rows_witness :
  exists out,
    run_optimization DEFAULT_PARAMS sample_params = Ok out /\
    map Metrics.Category out
    = ["Electronics"; "Apparel"; "Sports & Outdoors"; "Beauty & Health"] /\
    List.length out = 4%nat.
Proof.
  destruct (run_optimization DEFAULT_PARAMS sample_params) as [out|e] eqn:E;
    [|vm_compute in E; discriminate].
  exists out. split; [reflexivity|].
  destruct (run_optimization_keeps_rows DEFAULT_PARAMS sample_params out E)
    as (_ & Hl & Hc).
  split; [exact Hc | exact Hl].
Defined.

(** X2: the rows are computed independently of each other: running a
    table [a ++ b] is running [a], then [b], and appending the outputs;
    a run of [a ++ b] that succeeds splits into successful runs of [a]
    and [b], and an exception raised within [a] is the exception of the
    whole run. *)
Theorem run_optimization_row_by_row :
  forall (cfg : Params) (a b : list Input.row),
    run_optimization cfg (a ++ b)
    = (x <- run_optimization cfg a ;; y <- run_optimization cfg b ;; Ok (x ++ y)) /\
    (forall out, run_optimization cfg (a ++ b) = Ok out ->
       exists x y, run_optimization cfg a = Ok x /\
                   run_optimization cfg b = Ok y /\ out = x ++ y) /\
    (forall e, run_optimization cfg a = Raise e ->
       run_optimization cfg (a ++ b) = Raise e).
Proof.
  intros cfg a b. unfold run_optimization.
  split; [apply mapM_app|]. split.
  - intros out H. rewrite mapM_app in H. inv_bind H.
    inversion H; subst. eauto.
  - intros e H. rewrite mapM_app, H. reflexivity.
Qed.

Lemma run_optimization_row_by_row_witness :
  exists x y,
    run_optimization DEFAULT_PARAMS [electronics; apparel] = Ok x /\
    run_optimization DEFAULT_PARAMS [sports; beauty] = Ok y /\
    run_optimization DEFAULT_PARAMS ([electronics; apparel] ++ [sports; beauty])
    = Ok (x ++ y).
Proof.
  destruct (run_optimization DEFAULT_PARAMS ([electronics; apparel] ++ [sports; beauty]))
    as [out|e] eqn:E; [|vm_compute in E; discriminate].
  destruct (run_optimization_row_by_row DEFAULT_PARAMS [electronics; apparel]
              [sports; beauty]) as (_ & H & _).
  destruct (H out E) as (x & y & Hx & Hy & ->).
  exists x, y. repeat split; assumption.
Defined.

(* ================================================================== *)
(** * Configurations and tables the run rejects *)

Lemma optimization_row_zero_working_days (cfg : Params) (r : Input.row) :
  (working_days cfg =? 0)%float = true ->
  exists e, optimization_row cfg r = Raise e /\
    (forall q ss,
        eoq (Input.Annual_Demand r) (ordering_cost cfg)
            (Input.Unit_Cost_INR r * Input.Holding_Cost_Pct r)%float = Ok q ->
        safety_stock (Input.Demand_StdDev r) (lead_time_days cfg) (z_score cfg) 30 = Ok ss ->
        e = ZeroDivisionError).
Proof.
  intros Hwd. unfold optimization_row.
  destruct (eoq _ _ _) as [q|e1]; simpl.
  2:{ exists e1. split; [reflexivity|]. intros; discriminate. }
  destruct (safety_stock _ _ _ _) as [ss|e2]; simpl.
  2:{ exists e2. split; [reflexivity|]. intros; discriminate. }
  unfold reorder_point, Py.truediv. rewrite Hwd. simpl.
  exists ZeroDivisionError. split; reflexivity.
Qed.

(** X3: with [working_days] equal to zero, [reorder_point] raises
    [ZeroDivisionError] on every input, so every non-empty table fails;
    the exception of the run is [ZeroDivisionError] as soon as the EOQ
    and the safety stock of the first row compute. *)
Theorem zero_working_days_fails_run :
  forall (cfg : Params),
    (working_days cfg =? 0)%float = true ->
    (forall D lt ss,
        reorder_point D (working_days cfg) lt ss = Raise ZeroDivisionError) /\
    (forall r rest, exists e, run_optimization cfg (r :: rest) = Raise e) /\
    (forall r rest q ss,
        eoq (Input.Annual_Demand r) (ordering_cost cfg)
            (Input.Unit_Cost_INR r * Input.Holding_Cost_Pct r)%float = Ok q ->
        safety_stock (Input.Demand_StdDev r) (lead_time_days cfg) (z_score cfg) 30 = Ok ss ->
        run_optimization cfg (r :: rest) = Raise ZeroDivisionError).
Proof.
  intros cfg Hwd. split; [|split].
  - intros D lt ss. unfold reorder_point, Py.truediv. rewrite Hwd. reflexivity.
  - intros r rest.
    destruct (optimization_row_zero_working_days cfg r Hwd) as (e & He & _).
    exists e. unfold run_optimization. simpl. rewrite He. reflexivity.
  - intros r rest q ss Hq Hss.
    destruct (optimization_row_zero_working_days cfg r Hwd) as (e & He & Hz).
    rewrite (Hz q ss Hq Hss) in He.
    unfold run_optimization. simpl. rewrite He. reflexivity.
Qed.

Lemma zero_working_days_fails_run_witness :
  reorder_point 12000 0 14 165 = Raise ZeroDivisionError /\
  run_optimization idle_year sample_params = Raise ZeroDivisionError.
Proof.
  destruct (zero_working_days_fails_run idle_year eq_refl) as (Ha & _ & Hc).
  split; [apply (Ha 12000%float 14%float 165)|].
  destruct (eoq (Input.Annual_Demand electronics) (ordering_cost idle_year)
                (Input.Unit_Cost_INR electronics * Input.Holding_Cost_Pct electronics)%float)
    as [q|e] eqn:Eq; [|vm_compute in Eq; discriminate].
  destruct (safety_stock (Input.Demand_StdDev electronics) (lead_time_days idle_year)
                         (z_score idle_year) 30)
    as [ss|e] eqn:Es; [|vm_compute in Es; discriminate].
  exact (Hc electronics [apparel; sports; beauty] q ss Eq Es).
Defined.

(** X4: [cost_savings_analysis] on the empty table raises [KeyError]
    on the column [Before_Cost_INR], for every configuration and
    baseline, whereas [run_optimization] returns the empty frame; a frame
    the comparator returns has one row more than its non-empty input. *)
Theorem cost_savings_needs_a_row :
  forall (cfg : Params) (baseline_order_qty : Z),
    cost_savings_analysis cfg baseline_order_qty [] = Raise (KeyError "Before_Cost_INR") /\
    run_optimization cfg [] = Ok [] /\
    (forall params_df out,
        cost_savings_analysis cfg baseline_order_qty params_df = Ok out ->
        params_df <> [] /\ List.length out = S (List.length params_df)).
Proof.
  intros cfg q. split; [reflexivity|]. split; [reflexivity|].
  intros params_df out H. unfold cost_savings_analysis in H. inv_bind H.
  destruct v as [|s rows]; [discriminate|]. inversion H; subst; clear H.
  apply mapM_Ok_Forall2 in E. apply Forall2_length in E.
  split.
  - intros ->. discriminate.
  - simpl in E |- *. rewrite length_app. simpl. lia.
Qed.

Lemma cost_savings_needs_a_row_witness :
  cost_savings_analysis DEFAULT_PARAMS 1000 [] = Raise (KeyError "Before_Cost_INR") /\
  exists out,
    cost_savings_analysis DEFAULT_PARAMS 1000 sample_params = Ok out /\
    List.length out = 5%nat.
Proof.
  destruct (cost_savings_needs_a_row DEFAULT_PARAMS 1000) as (Ha & _ & Hc).
  split; [exact Ha|].
  destruct (cost_savings_analysis DEFAULT_PARAMS 1000 sample_params) as [out|e] eqn:E;
    [|vm_compute in E; discriminate].
  exists out. split; [reflexivity|].
  destruct (Hc sample_params out E) as (_ & Hl). exact Hl.
Defined.

Lemma savings_row_InvalidInput (cfg : Params) (q : Z) (r : Input.row) :
  (Input.Unit_Cost_INR r * Input.Holding_Cost_Pct r <=? 0)%float = true ->
  exists e, savings_row cfg q r = Raise e /\
    (forall ss,
        safety_stock (Input.Demand_StdDev r) (lead_time_days cfg) (z_score cfg) 30 = Ok ss ->
        e = InvalidInput).
Proof.
  intros H. unfold savings_row.
  destruct (safety_stock _ _ _ _) as [ss|e]; simpl.
  2:{ exists e. split; [reflexivity|]. intros; discriminate. }
  apply (eoq_InvalidInput_iff (Input.Annual_Demand r) (ordering_cost cfg)) in H.
  rewrite H. simpl. exists InvalidInput. split; reflexivity.
Qed.

(** X5: the comparator lets the holding-cost check of [eoq] through
    as well: a table with a row whose unit cost times holding-cost
    fraction is [<= 0] yields an exception and no frame, and the
    exception is [InvalidInput] when the rows before it computed and the
    safety stock of that row computes (the comparator evaluates the
    safety stock first). *)
Theorem cost_savings_invalid_holding_cost :
  forall (cfg : Params) (baseline_order_qty : Z),
    (forall (params_df : list Input.row) (r : Input.row),
        In r params_df ->
        (Input.Unit_Cost_INR r * Input.Holding_Cost_Pct r <=? 0)%float = true ->
        exists e, cost_savings_analysis cfg baseline_order_qty params_df = Raise e) /\
    (forall (pre post : list Input.row) (r : Input.row) (done : list Saving.row) (ss : Z),
        mapM (savings_row cfg baseline_order_qty) pre = Ok done ->
        safety_stock (Input.Demand_StdDev r) (lead_time_days cfg) (z_score cfg) 30 = Ok ss ->
        (Input.Unit_Cost_INR r * Input.Holding_Cost_Pct r <=? 0)%float = true ->
        cost_savings_analysis cfg baseline_order_qty (pre ++ r :: post)
        = Raise InvalidInput).
Proof.
  intros cfg q. split.
  - intros params_df r Hin H.
    destruct (savings_row_InvalidInput cfg q r H) as (e & He & _).
    destruct (mapM_Raise_In _ _ _ _ Hin He) as (e' & E').
    exists e'. unfold cost_savings_analysis. rewrite E'. reflexivity.
  - intros pre post r done ss Hpre Hss H.
    destruct (savings_row_InvalidInput cfg q r H) as (e & He & Hz).
    rewrite (Hz ss Hss) in He.
    unfold cost_savings_analysis.
    rewrite (mapM_Raise_first _ _ _ _ _ _ Hpre He). reflexivity.
Qed.

Lemma cost_savings_invalid_holding_cost_witness :
  cost_savings_analysis DEFAULT_PARAMS 1000 ([electronics] ++ free_goods :: [apparel])
  = Raise InvalidInput.
Proof.
  destruct (cost_savings_invalid_holding_cost DEFAULT_PARAMS 1000) as (_ & H).
  destruct (mapM (savings_row DEFAULT_PARAMS 1000) [electronics]) as [done|e] eqn:E;
    [|vm_compute in E; discriminate].
  destruct (safety_stock (Input.Demand_StdDev free_goods) (lead_time_days DEFAULT_PARAMS)
                         (z_score DEFAULT_PARAMS) 30)
    as [ss|e] eqn:Es; [|vm_compute in Es; discriminate].
  exact (H [electronics] [apparel] free_goods done ss E Es eq_refl).
Defined.

(* ================================================================== *)
(** * Alert rows and KPI counts *)

Lemma masks_any_row (m : Metrics.row) :
  is_critical m = labelled CRITICAL m /\
  is_reorder m = labelled REORDER m /\
  (if is_excess m then 1 else 0)
  = (if labelled EXCESS m then 1 else 0) + (if double_counted m then 1 else 0) /\
  (if labelled CRITICAL m then 1 else 0) + (if labelled REORDER m then 1 else 0)
  + (if labelled EXCESS m then 1 else 0) + (if labelled HEALTHY m then 1 else 0) = 1.
Proof.
  unfold double_counted, is_critical, is_reorder, is_excess, labelled, classify_alert.
  destruct (Z.ltb_spec (Metrics.Current_Stock m) (Metrics.Safety_Stock m));
    destruct (Z.ltb_spec (Metrics.Current_Stock m) (Metrics.Reorder_Point m));
    destruct (Z.geb_spec (Metrics.Current_Stock m) (Metrics.Safety_Stock m));
    destruct (Metrics.Excess_Stock m >? 0);
    simpl; try lia; auto.
Qed.

Lemma count_rows_app p (a b : list Metrics.row) :
  count_rows p (a ++ b) = count_rows p a + count_rows p b.
Proof.
  unfold count_rows. rewrite filter_app, length_app. lia.
Qed.

Lemma generate_alerts_length (now : string) (inv_df : list Metrics.row) :
  Z.of_nat (List.length (generate_alerts now inv_df))
  = Z.of_nat (List.length inv_df) - count_rows (labelled HEALTHY) inv_df.
Proof.
  unfold generate_alerts.
  rewrite (Permutation_length (sort_values_priority_perm _)).
  induction inv_df as [|m l IH]; [reflexivity|].
  rewrite count_rows_cons. cbn [map filter alert_row Alert.Alert_Level].
  unfold labelled at 1.
  destruct (AlertLevel_eqb (classify_alert m) HEALTHY); cbn [negb List.length];
    rewrite ?Nat2Z.inj_succ; lia.
Qed.

Lemma count_rows_split (p q r : Metrics.row -> bool) (l : list Metrics.row) :
  (forall m, (if p m then 1 else 0) = (if q m then 1 else 0) + (if r m then 1 else 0)) ->
  count_rows p l = count_rows q l + count_rows r l.
Proof.
  intros H. induction l as [|m l IH]; [reflexivity|].
  rewrite !count_rows_cons, IH. specialize (H m). lia.
Qed.

(** X7: on every inventory frame with a row, whatever produced it, the
    critical and reorder counts of [alert_summary_stats] are the numbers
    of rows [classify_alert] labels CRITICAL and REORDER; the excess
    count is the number of rows labelled EXCESS plus the rows with
    positive excess that are also critical or reorder; the residual
    healthy count is the number of rows labelled HEALTHY minus those
    doubly counted rows, so it never exceeds the number of HEALTHY rows;
    and the four labels partition the rows. *)
Theorem summary_counts_any_frame :
  forall (inv_df : list Metrics.row),
    inv_df <> [] ->
    let s := alert_summary_stats inv_df in
    critical s = count_rows (labelled CRITICAL) inv_df /\
    reorder s = count_rows (labelled REORDER) inv_df /\
    excess s = count_rows (labelled EXCESS) inv_df + count_rows double_counted inv_df /\
    healthy s = count_rows (labelled HEALTHY) inv_df - count_rows double_counted inv_df /\
    total_products s
    = count_rows (labelled CRITICAL) inv_df + count_rows (labelled REORDER) inv_df
      + count_rows (labelled EXCESS) inv_df + count_rows (labelled HEALTHY) inv_df /\
    healthy s <= count_rows (labelled HEALTHY) inv_df.
Proof.
  intros inv_df _ s.
  assert (Hc : count_rows is_critical inv_df = count_rows (labelled CRITICAL) inv_df).
  { apply count_rows_ext, Forall_forall. intros m _. apply masks_any_row. }
  assert (Hr : count_rows is_reorder inv_df = count_rows (labelled REORDER) inv_df).
  { apply count_rows_ext, Forall_forall. intros m _. apply masks_any_row. }
  assert (He : count_rows is_excess inv_df
               = count_rows (labelled EXCESS) inv_df + count_rows double_counted inv_df).
  { apply count_rows_split. intros m. apply masks_any_row. }
  assert (Ht : Z.of_nat (List.length inv_df)
               = count_rows (labelled CRITICAL) inv_df + count_rows (labelled REORDER) inv_df
                 + count_rows (labelled EXCESS) inv_df
                 + count_rows (labelled HEALTHY) inv_df).
  { clear. induction inv_df as [|m l IH]; [reflexivity|].
    rewrite !count_rows_cons. simpl List.length. rewrite Nat2Z.inj_succ.
    destruct (masks_any_row m) as (_ & _ & _ & H). lia. }
  pose proof (count_rows_nonneg double_counted inv_df) as Hd.
  change (critical s) with (count_rows is_critical inv_df).
  change (reorder s) with (count_rows is_reorder inv_df).
  change (excess s) with (count_rows is_excess inv_df).
  change (total_products s) with (Z.of_nat (List.length inv_df)).
  change (healthy s)
    with (Z.of_nat (List.length inv_df) - count_rows is_critical inv_df
          - count_rows is_reorder inv_df - count_rows is_excess inv_df).
  repeat split; lia.
Qed.

Lemma summary_counts_any_frame_witness :
  exists out,
    run_optimization backwards_year [small_stock] = Ok out /\
    healthy (alert_summary_stats out)
    = count_rows (labelled HEALTHY) out - count_rows double_counted out /\
    healthy (alert_summary_stats out) = -1 /\
    count_rows double_counted out = 1.
Proof.
  destruct (run_optimization backwards_year [small_stock]) as [out|e] eqn:E;
    [|vm_compute in E; discriminate].
  exists out. split; [reflexivity|].
  assert (Hne : out <> []) by (intros ->; vm_compute in E; discriminate E).
  destruct (summary_counts_any_frame out Hne) as (_ & _ & _ & Hh & _).
  split; [exact Hh|].
  vm_compute in E. inversion E; subst. split; vm_compute; reflexivity.
Defined.

(** X6: the alert report of a frame with a row has as many rows as the
    frame has rows the classifier does not label HEALTHY.  For a frame the
    pipeline produces under working days [> 0], lead time and z-score
    [>= 0], from rows with demand and standard deviation [>= 0], that
    number is the sum of the critical, reorder and excess counts of
    [alert_summary_stats], and the report is empty exactly when the
    healthy count equals the number of products. *)
Theorem alert_rows_match_summary :
  forall (now : string) (inv_df : list Metrics.row),
    inv_df <> [] ->
    Z.of_nat (List.length (generate_alerts now inv_df))
    = total_products (alert_summary_stats inv_df)
      - count_rows (labelled HEALTHY) inv_df /\
    (forall (cfg : Params) (params_df : list Input.row),
        fnonneg (z_score cfg) -> fnonneg (lead_time_days cfg) ->
        fpositive (working_days cfg) ->
        Forall (fun r => fnonneg (Input.Annual_Demand r) /\
                         fnonneg (Input.Demand_StdDev r)) params_df ->
        run_optimization cfg params_df = Ok inv_df ->
        Z.of_nat (List.length (generate_alerts now inv_df))
        = critical (alert_summary_stats inv_df) + reorder (alert_summary_stats inv_df)
          + excess (alert_summary_stats inv_df) /\
        (generate_alerts now inv_df = [] <->
         healthy (alert_summary_stats inv_df) = total_products (alert_summary_stats inv_df))).
Proof.
  intros now inv_df _. split; [apply generate_alerts_length|].
  intros cfg params_df Hz Hlt Hwd Hrows Hrun.
  pose proof (pipeline_rows_consistent _ _ _ Hz Hlt Hwd Hrows Hrun) as Hc.
  pose proof (consistent_rows_partition inv_df Hc) as Hp.
  pose proof (generate_alerts_length now inv_df) as Hl.
  pose proof (count_rows_nonneg is_critical inv_df).
  pose proof (count_rows_nonneg is_reorder inv_df).
  pose proof (count_rows_nonneg is_excess inv_df).
  change (critical (alert_summary_stats inv_df)) with (count_rows is_critical inv_df).
  change (reorder (alert_summary_stats inv_df)) with (count_rows is_reorder inv_df).
  change (excess (alert_summary_stats inv_df)) with (count_rows is_excess inv_df).
  change (total_products (alert_summary_stats inv_df)) with (Z.of_nat (List.length inv_df)).
  change (healthy (alert_summary_stats inv_df))
    with (Z.of_nat (List.length inv_df) - count_rows is_critical inv_df
          - count_rows is_reorder inv_df - count_rows is_excess inv_df).
  split; [lia|]. split.
  - intros E. rewrite E in Hl. simpl in Hl. lia.
  - intros E. destruct (generate_alerts now inv_df); [reflexivity|].
    simpl List.length in Hl. lia.
Qed.

Lemma alert_rows_match_summary_witness :
  exists out,
    run_optimization DEFAULT_PARAMS sample_params = Ok out /\
    Z.of_nat (List.length (generate_alerts "2025-02-01 09:00:00" out))
    = critical (alert_summary_stats out) + reorder (alert_summary_stats out)
      + excess (alert_summary_stats out) /\
    List.length (generate_alerts "2025-02-01 09:00:00" out) = 3%nat.
Proof.
  destruct (run_optimization DEFAULT_PARAMS sample_params) as [out|e] eqn:E;
    [|vm_compute in E; discriminate].
  exists out. split; [reflexivity|].
  assert (Hrows : Forall (fun r => fnonneg (Input.Annual_Demand r) /\
                                   fnonneg (Input.Demand_StdDev r)) sample_params).
  { unfold sample_params.
    repeat (apply Forall_cons; [split; reflexivity|]). apply Forall_nil. }
  assert (Hne : out <> []) by (intros ->; vm_compute in E; discriminate E).
  destruct (alert_rows_match_summary "2025-02-01 09:00:00" out Hne) as (_ & H).
  destruct (H DEFAULT_PARAMS sample_params eq_refl eq_refl eq_refl Hrows E) as (Hn & _).
  split; [exact Hn|].
  vm_compute in E. inversion E; subst. vm_compute. reflexivity.
Defined.



(* ================================================================== *)
(** * The combined report of a frame and its own alert report *)

Lemma filter_perm {A : Type} (p : A -> bool) (l l' : list A) :
  Permutation l l' -> Permutation (filter p l) (filter p l').
Proof.
  induction 1 as [|x l l' _ IH|x y l|l l' l'' _ IH1 _ IH2]; simpl.
  - constructor.
  - destruct (p x); [constructor|]; exact IH.
  - destruct (p x), (p y); try reflexivity. apply perm_swap.
  - etransitivity; eassumption.
Qed.

Lemma alerts_of_other_category (now : string) (inv_df : list Metrics.row) (c : string) :
  ~ In c (map Metrics.Category inv_df) ->
  filter (fun a => String.eqb (Alert.Category a) c)
         (filter (fun a => negb (AlertLevel_eqb (Alert.Alert_Level a) HEALTHY))
                 (map (alert_row now) inv_df)) = [].
Proof.
  induction inv_df as [|x l IH]; [reflexivity|].
  intros Hn. cbn [map filter].
  assert (Hx : Metrics.Category x <> c) by (intros E; apply Hn; left; exact E).
  assert (Hl : ~ In c (map Metrics.Category l)) by (intros E; apply Hn; right; exact E).
  destruct (negb _); [|exact (IH Hl)].
  cbn [filter]. change (Alert.Category (alert_row now x)) with (Metrics.Category x).
  apply String.eqb_neq in Hx. rewrite Hx. exact (IH Hl).
Qed.

Lemma alerts_of_own_category (now : string) (inv_df : list Metrics.row) (m : Metrics.row) :
  NoDup (map Metrics.Category inv_df) -> In m inv_df ->
  filter (fun a => String.eqb (Alert.Category a) (Metrics.Category m))
         (filter (fun a => negb (AlertLevel_eqb (Alert.Alert_Level a) HEALTHY))
                 (map (alert_row now) inv_df))
  = if labelled HEALTHY m then [] else [alert_row now m].
Proof.
  induction inv_df as [|x l IH]; [contradiction|].
  intros Hnd Hin. cbn [map] in Hnd. inversion Hnd as [|c cs Hx Hl]; subst.
  cbn [map filter]. destruct Hin as [->|Hin].
  - unfold labelled.
    change (Alert.Alert_Level (alert_row now m)) with (classify_alert m).
    destruct (AlertLevel_eqb (classify_alert m) HEALTHY); cbn [negb].
    + apply alerts_of_other_category; exact Hx.
    + cbn [filter]. change (Alert.Category (alert_row now m)) with (Metrics.Category m).
      rewrite String.eqb_refl.
      f_equal. apply alerts_of_other_category; exact Hx.
  - assert (Hc : Metrics.Category x <> Metrics.Category m).
    { intros E. apply Hx. rewrite E. apply in_map; exact Hin. }
    destruct (negb _); [|exact (IH Hl Hin)].
    cbn [filter]. change (Alert.Category (alert_row now x)) with (Metrics.Category x).
    apply String.eqb_neq in Hc. rewrite Hc.
    exact (IH Hl Hin).
Qed.

Lemma alerts_of_generate_alerts (now : string) (inv_df : list Metrics.row)
      (m : Metrics.row) :
  NoDup (map Metrics.Category inv_df) -> In m inv_df ->
  alerts_of (generate_alerts now inv_df) m
  = if labelled HEALTHY m then [] else [alert_row now m].
Proof.
  intros Hnd Hin. unfold alerts_of, generate_alerts.
  pose proof (filter_perm
                (fun a => String.eqb (Alert.Category a) (Metrics.Category m)) _ _
                (sort_values_priority_perm
                   (filter (fun a => negb (AlertLevel_eqb (Alert.Alert_Level a) HEALTHY))
                           (map (alert_row now) inv_df)))) as Hp.
  rewrite (alerts_of_own_category now inv_df m Hnd Hin) in Hp.
  destruct (labelled HEALTHY m).
  - apply Permutation_nil. symmetry. exact Hp.
  - apply Permutation_length_1_inv. symmetry. exact Hp.
Qed.

(** X8: for a frame with pairwise distinct categories whose alert
    report is not empty, the combined report of the frame and its own
    alert report keeps the inventory rows in order, and gives each row
    the level [classify_alert] assigns to it, with the alert message of
    that level, or ["No action needed"] on a HEALTHY row. *)
Theorem combined_report_labels_own_alerts :
  forall (now : string) (inv_df : list Metrics.row),
    NoDup (map Metrics.Category inv_df) ->
    generate_alerts now inv_df <> [] ->
    exists rows,
      combined_report inv_df (generate_alerts now inv_df) = WithAlertColumns rows /\
      map Combined.metrics rows = inv_df /\
      Forall (fun row =>
                let m := Combined.metrics row in
                Combined.Alert_Level row = level_name (classify_alert m) /\
                Combined.Action_Message row
                = if labelled HEALTHY m then "No action needed"
                  else _action_message (classify_alert m) m) rows.
Proof.
  intros now inv_df Hnd Hne.
  assert (E : combined_report inv_df (generate_alerts now inv_df)
              = WithAlertColumns (map fillna (left_join inv_df (generate_alerts now inv_df)))).
  { unfold combined_report. destruct (generate_alerts now inv_df); [congruence|reflexivity]. }
  rewrite E. eexists. split; [reflexivity|].
  assert (Hall : forall m, In m inv_df ->
            alerts_of (generate_alerts now inv_df) m
            = if labelled HEALTHY m then [] else [alert_row now m])
    by (intros m Hm; apply alerts_of_generate_alerts; assumption).
  clear E Hnd Hne. unfold left_join.
  set (al := generate_alerts now inv_df) in *. clearbody al.
  induction inv_df as [|m l IH]; [split; constructor|].
  cbn [flat_map]. rewrite !map_app.
  destruct IH as (IH1 & IH2); [intros x Hx; apply Hall; right; exact Hx|].
  fold (alerts_of al m). rewrite (Hall m (or_introl eq_refl)).
  unfold labelled. destruct (classify_alert m) eqn:Ec; cbn [AlertLevel_eqb].
  all: split;
    [ cbn [map app fillna Combined.metrics]; f_equal; exact IH1
    | cbn [map app fillna]; constructor; [|exact IH2];
      cbn [Combined.metrics Combined.Alert_Level Combined.Action_Message
           alert_row Alert.Alert_Level Alert.Action_Message];
      unfold labelled; rewrite Ec; split; reflexivity ].
Qed.

Lemma combined_report_labels_own_alerts_witness :
  exists rows,
    combined_report sample_metrics (generate_alerts "2025-02-01 09:00:00" sample_metrics)
    = WithAlertColumns rows /\
    map Combined.metrics rows = sample_metrics /\
    map Combined.Alert_Level rows = map (fun m => level_name (classify_alert m)) sample_metrics.
Proof.
  assert (Hnd : NoDup (map Metrics.Category sample_metrics)).
  { vm_compute. repeat constructor; simpl; intuition discriminate. }
  assert (Hne : generate_alerts "2025-02-01 09:00:00" sample_metrics <> [])
    by (vm_compute; discriminate).
  destruct (combined_report_labels_own_alerts "2025-02-01 09:00:00" sample_metrics Hnd Hne)
    as (rows & E & Hm & Hl).
  exists rows. split; [exact E|]. split; [exact Hm|].
  rewrite <- Hm. rewrite map_map.
  clear E Hm. induction Hl as [|row l (Hlvl & _) _ IH]; simpl; [reflexivity|].
  rewrite Hlvl, IH. reflexivity.
Defined.

(* ================================================================== *)
(** * The SQL statement *)

Lemma fold_left_append {A B : Type} (g : A -> B -> string) (l : list (A * B))
      (acc : list string) :
  fold_left (fun lines '(i, row) => lines ++ [g i row]) l acc
  = acc ++ map (fun p => g (fst p) (snd p)) l.
Proof.
  revert acc. induction l as [|[i row] l IH]; intros acc; simpl.
  - rewrite app_nil_r. reflexivity.
  - rewrite IH, <- app_assoc. reflexivity.
Qed.

Lemma iterrows_from_app (i : Z) (a b : list Metrics.row) :
  iterrows_from i (a ++ b)
  = iterrows_from i a ++ iterrows_from (i + Z.of_nat (List.length a)) b.
Proof.
  revert i. induction a as [|x a IH]; intros i; cbn [iterrows_from app List.length].
  - f_equal. simpl. lia.
  - cbn [app]. rewrite IH. cbn [List.length]. rewrite Nat2Z.inj_succ.
    replace (i + 1 + Z.of_nat (List.length a)) with (i + Z.succ (Z.of_nat (List.length a)))
      by lia.
    reflexivity.
Qed.

Lemma iterrows_from_index (i : Z) (df : list Metrics.row) :
  map fst (iterrows_from i df) = map (fun k => i + Z.of_nat k) (seq 0 (List.length df)).
Proof.
  revert i. induction df as [|x df IH]; intros i; [reflexivity|].
  simpl. f_equal; [lia|]. rewrite IH, <- seq_shift, map_map.
  apply map_ext. intros k. lia.
Qed.

Lemma iterrows_from_bound (i : Z) (df : list Metrics.row) :
  Forall (fun p => i <= fst p < i + Z.of_nat (List.length df)) (iterrows_from i df).
Proof.
  revert i. induction df as [|x df IH]; intros i; cbn [iterrows_from]; constructor.
  - cbn [fst List.length]. rewrite Nat2Z.inj_succ. lia.
  - eapply Forall_impl; [|apply IH]. cbn [List.length]. intros p Hp.
    rewrite Nat2Z.inj_succ. lia.
Qed.

(** X10: the SQL statement of the empty frame is the six header lines
    alone, ending with [VALUES] and without a terminator.  For a
    non-empty frame the header is followed by one tuple line per row, in
    input order, numbered [1, 2, ...] as product ids; every tuple line
    but the last ends with a comma and the last ends with a semicolon. *)
Theorem to_sql_insert_statement :
  forall (snapshot_date : string),
    (List.length (to_sql_insert_lines [] snapshot_date) = 6%nat /\
     last (to_sql_insert_lines [] snapshot_date) EmptyString = "VALUES") /\
    (forall (init : list Metrics.row) (final : Metrics.row),
        to_sql_insert_lines (init ++ [final]) snapshot_date
        = to_sql_insert_lines [] snapshot_date
          ++ map (fun p => (values_tuple snapshot_date (fst p + 1) (snd p) ++ ",")%string)
                 (iterrows init)
          ++ [(values_tuple snapshot_date (Z.of_nat (List.length init) + 1) final
               ++ ";")%string]) /\
    (forall (inv_df : list Metrics.row),
        List.length (to_sql_insert_lines inv_df snapshot_date)
        = (6 + List.length inv_df)%nat /\
        map fst (iterrows inv_df) = map Z.of_nat (seq 0 (List.length inv_df))).
Proof.
  intros date. split; [split; reflexivity|].
  assert (Hl : forall inv_df,
             to_sql_insert_lines inv_df date
             = to_sql_insert_lines [] date
               ++ map (fun p =>
                         String.append
                           (values_tuple date (fst p + 1) (snd p))
                           (if fst p <? Z.of_nat (List.length inv_df) - 1
                            then "," else ";"))
                      (iterrows inv_df)).
  { intros inv_df. unfold to_sql_insert_lines.
    cbn [iterrows iterrows_from fold_left].
    apply (fold_left_append
             (fun i row => String.append
                             (values_tuple date (i + 1) row)
                             (if i <? Z.of_nat (List.length inv_df) - 1
                              then "," else ";"))). }
  split.
  - intros init final. rewrite Hl. f_equal.
    unfold iterrows. rewrite iterrows_from_app, map_app. f_equal.
    + apply map_ext_in. intros [i row] Hin.
      pose proof (iterrows_from_bound 0 init) as Hb.
      rewrite Forall_forall in Hb. specialize (Hb _ Hin). cbn [fst snd] in *.
      rewrite length_app. simpl List.length.
      destruct (Z.ltb_spec i (Z.of_nat (List.length init + 1) - 1)); [reflexivity|lia].
    + cbn [iterrows_from map fst snd]. rewrite length_app. simpl List.length.
      destruct (Z.ltb_spec (0 + Z.of_nat (List.length init))
                           (Z.of_nat (List.length init + 1) - 1)); [lia|].
      reflexivity.
  - intros inv_df. split.
    + rewrite Hl, length_app, length_map.
      unfold iterrows.
      rewrite <- (length_map fst), iterrows_from_index, length_map, length_seq.
      reflexivity.
    + unfold iterrows. rewrite iterrows_from_index. apply map_ext. intros; lia.
Qed.

(* ================================================================== *)
(** * Stockout risk at its ends *)

(** ** Rounding a quotient *)

(** The second shift of [binary_round_aux]: a mantissa at its target
    exponent, possibly incremented by the rounding. *)
Lemma shr_fexp_after_rounding (p1 p2 : positive) (t : Z) :
  -1074 <= t ->
  fexp prec emax (Z.pos (digits2_pos p1) + t) = t ->
  Z.pos p2 = Z.pos p1 \/ Z.pos p2 = Z.pos p1 + 1 ->
  exists mrs (m' : positive) (e' : Z),
    shr_fexp prec emax (Z.pos p2) t loc_Exact = (mrs, e') /\
    shr_m mrs = Z.pos m' /\
    fexp prec emax (Z.pos (digits2_pos m') + e') = e' /\
    t <= e' /\ Z.pos p1 <= Z.pos m' * 2 ^ (e' - t).
Proof.
  intros Ht Hc Hp.
  pose proof (digits2_pos_bounds p1) as [Lo Hi].
  set (d := Z.pos (digits2_pos p1)) in *.
  assert (Hd : 0 < d) by (unfold d; lia).
  rewrite fexp_eq in Hc.
  destruct (Z.eq_dec (Z.pos p2) (2 ^ d)) as [Htop|Hntop].
  - (* the increment carried into one more digit *)
    assert (D2 : Z.pos (digits2_pos p2) = d + 1).
    { apply digits2_pos_unique. rewrite Htop.
      replace (d + 1 - 1) with d by lia. split; [lia|].
      apply Z.pow_lt_mono_r; lia. }
    destruct (shr_fexp_pos p2 t loc_Exact) as (Hno & Hsh).
    rewrite D2 in Hno, Hsh.
    destruct (Z.eq_dec d 53) as [E53|N53].
    + assert (T2 : fexp prec emax (d + 1 + t) = t + 1) by (rewrite fexp_eq; lia).
      rewrite T2 in Hsh. destruct (Hsh ltac:(lia)) as (mrs & Hshr & Hm).
      replace (t + 1 - t) with 1 in Hm by lia.
      rewrite Htop, E53 in Hm. change (2 ^ 53 / 2 ^ 1) with (Z.pos 4503599627370496) in Hm.
      exists mrs, 4503599627370496%positive, (t + 1).
      split; [exact Hshr|]. split; [exact Hm|].
      split; [rewrite fexp_eq; change (Z.pos (digits2_pos 4503599627370496)) with 53; lia|].
      split; [lia|].
      replace (t + 1 - t) with 1 by lia. rewrite E53 in Hi.
      change (2 ^ 53) with 9007199254740992 in Hi. change (2 ^ 1) with 2. lia.
    + assert (T2 : fexp prec emax (d + 1 + t) = t) by (rewrite fexp_eq; lia).
      rewrite T2 in Hno. specialize (Hno ltac:(lia)).
      exists (shr_record_of_loc (Z.pos p2) loc_Exact), p2, t.
      split; [exact Hno|]. split; [reflexivity|].
      split; [rewrite D2; exact T2|]. split; [lia|].
      rewrite Z.sub_diag. simpl. lia.
  - assert (D2 : Z.pos (digits2_pos p2) = d).
    { apply digits2_pos_unique. lia. }
    destruct (shr_fexp_pos p2 t loc_Exact) as (Hno & _).
    rewrite D2 in Hno.
    assert (T2 : fexp prec emax (d + t) = t) by (rewrite fexp_eq; exact Hc).
    rewrite T2 in Hno. specialize (Hno ltac:(lia)).
    exists (shr_record_of_loc (Z.pos p2) loc_Exact), p2, t.
    split; [exact Hno|]. split; [reflexivity|].
    split; [rewrite D2; exact T2|]. split; [lia|].
    rewrite Z.sub_diag. simpl. lia.
Qed.

(** [binary_round_aux] on a mantissa with any location, at or below its
    target exponent [t]: a valid float not below the mantissa cut to a
    multiple of [2^t], or an overflow. *)
Lemma binary_round_aux_located (p : positive) (e : Z) (l : location) :
  -1074 <= e ->
  let t := fexp prec emax (Z.pos (digits2_pos p) + e) in
  e <= t ->
  exists (m' : positive) (e' : Z),
    binary_round_aux prec emax false (Z.pos p) e l
    = (if e' <=? emax - prec then S754_finite false m' e' else S754_infinity false) /\
    fexp prec emax (Z.pos (digits2_pos m') + e') = e' /\
    t <= e' /\
    Z.pos p / 2 ^ (t - e) <= Z.pos m' * 2 ^ (e' - t).
Proof.
  intros He t Ht.
  pose proof (digits2_pos_bounds p) as [Dlo Dhi].
  set (d := Z.pos (digits2_pos p)) in *.
  assert (Hd : 0 < d) by (unfold d; lia).
  assert (Et : t = Z.max (d + e - 53) (-1074)) by (unfold t; rewrite fexp_eq; reflexivity).
  assert (Ht74 : -1074 <= t) by lia.
  set (m1 := Z.pos p / 2 ^ (t - e)).
  assert (Hfirst : exists mrs, shr_fexp prec emax (Z.pos p) e l = (mrs, t) /\ shr_m mrs = m1).
  { destruct (shr_fexp_pos p e l) as (Hno & Hsh). fold d in Hno, Hsh. fold t in Hno, Hsh.
    destruct (Z.eq_dec e t) as [Eq|Ne].
    - exists (shr_record_of_loc (Z.pos p) l). split.
      + rewrite Hno by lia. f_equal. exact Eq.
      + rewrite shr_m_of_loc. unfold m1. rewrite <- Eq, Z.sub_diag. simpl.
        rewrite Z.div_1_r. reflexivity.
    - destruct (Hsh ltac:(lia)) as (mrs & H1 & H2). exists mrs. split; assumption. }
  destruct Hfirst as (mrs & Hshr & Hmrs).
  (* the cut mantissa is at its target exponent *)
  assert (Hm1 : 0 < m1 /\ forall p1, Z.pos p1 = m1 ->
                 fexp prec emax (Z.pos (digits2_pos p1) + t) = t).
  { destruct (Z.eq_dec e t) as [Eq|Ne].
    - assert (E1 : m1 = Z.pos p).
      { unfold m1. rewrite <- Eq, Z.sub_diag. simpl. apply Z.div_1_r. }
      split; [lia|]. intros p1 Hp1. rewrite E1 in Hp1. inversion Hp1; subst p1.
      fold d. rewrite <- Eq. exact (eq_sym Eq).
    - assert (Etd : t = d + e - 53) by lia.
      assert (Hn : t - e = d - 53) by lia.
      assert (H53 : 53 < d) by lia.
      assert (B : 2 ^ 52 <= m1 < 2 ^ 53).
      { unfold m1. rewrite Hn.
        assert (0 < 2 ^ (d - 53)) by (apply Z.pow_pos_nonneg; lia).
        split.
        - apply Z.div_le_lower_bound; [lia|].
          rewrite <- Z.pow_add_r by lia. replace (d - 53 + 52) with (d - 1) by lia. exact Dlo.
        - apply Z.div_lt_upper_bound; [lia|].
          rewrite <- Z.pow_add_r by lia. replace (d - 53 + 53) with d by lia. exact Dhi. }
      split; [change (2 ^ 52) with 4503599627370496 in B; lia|].
      intros p1 Hp1.
      assert (D1 : Z.pos (digits2_pos p1) = 53).
      { apply digits2_pos_unique. rewrite Hp1. change (53 - 1) with 52. exact B. }
      rewrite D1, fexp_eq. lia. }
  destruct Hm1 as (Hpos1 & Hcan1).
  destruct m1 as [|p1|p1] eqn:Em1; try lia.
  specialize (Hcan1 p1 eq_refl).
  unfold binary_round_aux. rewrite Hshr.
  set (m2 := round_nearest_even (shr_m mrs) (loc_of_shr_record mrs)).
  assert (Hm2 : m2 = Z.pos p1 \/ m2 = Z.pos p1 + 1)
    by (unfold m2; rewrite Hmrs; apply round_nearest_even_cases).
  destruct m2 as [|p2|p2] eqn:Ep2; try lia.
  destruct (shr_fexp_after_rounding p1 p2 t Ht74 Hcan1 Hm2)
    as (mrs2 & m' & e' & Hshr2 & Hm' & Hc' & Hle & Hv).
  rewrite Hshr2, Hm'. exists m', e'. repeat split; assumption.
Qed.

(** A float that the exact value is not below is not above that value
    cut to a multiple of its target unit. *)
Lemma floor_not_below_float (M : positive) (e : Z) (mb : positive) (eb : Z) :
  -1074 <= e ->
  fexp prec emax (Z.pos (digits2_pos mb) + eb) = eb ->
  scaled mb eb <= scaled M e ->
  let t := fexp prec emax (Z.pos (digits2_pos M) + e) in
  scaled mb eb <= scaled M e / 2 ^ (t + 1074) * 2 ^ (t + 1074).
Proof.
  intros He Hcan Hle.
  set (d := Z.pos (digits2_pos M)) in *.
  set (db := Z.pos (digits2_pos mb)) in *.
  intros t.
  assert (Ht : -1074 <= t) by (unfold t; rewrite fexp_eq; lia).
  assert (Heb : -1074 <= eb) by (rewrite <- Hcan, fexp_eq; lia).
  pose proof (digits2_pos_bounds M) as [Dlo Dhi]. fold d in Dlo, Dhi.
  pose proof (digits2_pos_bounds mb) as [Blo Bhi]. fold db in Blo, Bhi.
  assert (Hd : 0 < d) by (unfold d; lia).
  assert (Hdb : 0 < db) by (unfold db; lia).
  pose proof (pow2_pos (t + 1074) ltac:(lia)) as HT.
  destruct (Z.le_gt_cases t eb) as [Hteb|Hteb].
  - assert (Hb : scaled mb eb = Z.pos mb * 2 ^ (eb - t) * 2 ^ (t + 1074)).
    { unfold scaled. rewrite <- Z.mul_assoc, <- pow2_split by lia.
      f_equal. f_equal. lia. }
    rewrite Hb. apply Z.mul_le_mono_nonneg_r; [lia|].
    apply Z.div_le_lower_bound; [lia|]. rewrite Z.mul_comm, <- Hb. exact Hle.
  - assert (Hmag : db + eb <= d + e - 1).
    { destruct (Z.le_gt_cases (d + e) (db + eb)) as [Hc|Hc]; [|lia].
      apply fexp_mono in Hc. fold t in Hc. rewrite Hcan in Hc. lia. }
    assert (Htd : t <= d + e - 1) by (unfold t; rewrite fexp_eq; lia).
    set (P := 2 ^ (d + e - 1 - t) * 2 ^ (t + 1074)).
    assert (HP : P = 2 ^ (d + e - 1 + 1074)).
    { unfold P. rewrite <- pow2_split by lia. f_equal. lia. }
    assert (HPX : P <= scaled M e).
    { rewrite HP. unfold scaled.
      replace (d + e - 1 + 1074) with ((d - 1) + (e + 1074)) by lia.
      rewrite pow2_split by lia.
      apply Z.mul_le_mono_nonneg_r; [pose proof (pow2_pos (e + 1074)); lia | exact Dlo]. }
    assert (HBP : scaled mb eb <= P).
    { rewrite HP. unfold scaled.
      apply Z.le_trans with (2 ^ db * 2 ^ (eb + 1074)).
      - apply Z.mul_le_mono_nonneg_r; [pose proof (pow2_pos (eb + 1074)); lia | lia].
      - rewrite <- pow2_split by lia. apply Z.pow_le_mono_r; lia. }
    eapply Z.le_trans; [exact HBP|].
    unfold P. apply Z.mul_le_mono_nonneg_r; [lia|].
    apply Z.div_le_lower_bound; [lia|]. rewrite Z.mul_comm. exact HPX.
Qed.

(** Rounding a located mantissa does not go below a float that the
    mantissa is not below. *)
Lemma binary_round_aux_lower (p : positive) (e : Z) (l : location)
      (mb : positive) (eb : Z) :
  -1074 <= e ->
  e <= fexp prec emax (Z.pos (digits2_pos p) + e) ->
  fexp prec emax (Z.pos (digits2_pos mb) + eb) = eb ->
  scaled mb eb <= scaled p e ->
  match binary_round_aux prec emax false (Z.pos p) e l with
  | S754_finite s m' e' =>
      s = false /\ bounded prec emax m' e' = true /\ scaled mb eb <= scaled m' e'
  | S754_infinity s => s = false
  | _ => False
  end.
Proof.
  intros He Ht Hcan Hle.
  destruct (binary_round_aux_located p e l He Ht) as (m' & e' & -> & Hc & Hte & Hv).
  set (t := fexp prec emax (Z.pos (digits2_pos p) + e)) in *.
  destruct (e' <=? emax - prec) eqn:Hb; [|reflexivity].
  split; [reflexivity|]. split.
  { unfold bounded, canonical_mantissa. rewrite Hb, Hc, Z.eqb_refl. reflexivity. }
  eapply Z.le_trans; [apply (floor_not_below_float p e mb eb He Hcan Hle)|].
  fold t. assert (Ht74 : -1074 <= t) by (unfold t; rewrite fexp_eq; lia).
  unfold scaled.
  replace (t + 1074) with ((t - e) + (e + 1074)) at 1 by lia.
  rewrite (pow2_split (t - e) (e + 1074)) by lia.
  rewrite Z.div_mul_cancel_r
    by (pose proof (pow2_pos (t - e)); pose proof (pow2_pos (e + 1074)); lia).
  replace (e' + 1074) with ((e' - t) + (t + 1074)) by lia.
  rewrite (pow2_split (e' - t) (t + 1074)) by lia. rewrite Z.mul_assoc.
  apply Z.mul_le_mono_nonneg_r; [|exact Hv].
  pose proof (pow2_pos (t + 1074)); lia.
Qed.

(** ** The quotient of two ints *)

Lemma Prim2SF_one : Prim2SF 1 = S754_finite false 4503599627370496 (-52).
Proof. reflexivity. Qed.

(** [cs / rop] with [cs >= rop > 0] is a float not below [1.0], or
    overflows. *)
Lemma int_quotient_ge_one (pc pr : positive) :
  (pr <= pc)%positive ->
  match SF64div (S754_finite false pc 0) (S754_finite false pr 0) with
  | S754_finite s m e =>
      s = false /\ bounded prec emax m e = true /\ 2 ^ 1074 <= scaled m e
  | S754_infinity s => s = false
  | _ => False
  end.
Proof.
  intros Hle. unfold SF64div, SFdiv, SFdiv_core_binary. cbn [xorb Zdigits2].
  pose proof (digits2_pos_bounds pc) as [Clo Chi].
  pose proof (digits2_pos_bounds pr) as [Rlo Rhi].
  set (d1 := Z.pos (digits2_pos pc)) in *.
  set (d2 := Z.pos (digits2_pos pr)) in *.
  assert (Hd2 : 0 < d2) by (unfold d2; lia).
  assert (Hd : d2 <= d1).
  { destruct (Z.le_gt_cases d2 d1) as [|Hgt]; [assumption|].
    assert (2 ^ d1 <= 2 ^ (d2 - 1)) by (apply Z.pow_le_mono_r; lia).
    assert (Z.pos pr <= Z.pos pc) by lia. lia. }
  replace (d1 + 0 - (d2 + 0)) with (d1 - d2) by lia.
  change (0 - 0) with 0. rewrite fexp_eq.
  set (e' := Z.min (Z.max (d1 - d2 - 53) (-1074)) 0).
  set (s := 0 - e').
  assert (He' : -1074 <= e' <= 0) by (unfold e'; lia).
  assert (Hs : 0 <= s) by (unfold s; lia).
  set (m' := match s with
             | 0 => Z.pos pc
             | Z.pos _ => Z.shiftl (Z.pos pc) s
             | Z.neg _ => 0
             end).
  assert (Hm' : m' = Z.pos pc * 2 ^ s).
  { unfold m'. destruct s as [|ps|ps] eqn:Es; [simpl; lia | | lia].
    rewrite Z.shiftl_mul_pow2 by lia. reflexivity. }
  pose proof (pow2_pos s Hs) as Hps.
  assert (Hq : 2 ^ s <= m' / Z.pos pr /\ 2 ^ 52 <= m' / Z.pos pr).
  { rewrite Hm'. split.
    - apply Z.div_le_lower_bound; [lia|]. nia.
    - apply Z.div_le_lower_bound; [lia|].
      (* pr < 2^d2 and pc * 2^s >= 2^(d1 - 1 + s) >= 2^(52 + d2) *)
      assert (H1 : 2 ^ (52 + d2) <= 2 ^ (d1 - 1 + s)).
      { apply Z.pow_le_mono_r; [lia|]. unfold s, e'. lia. }
      rewrite pow2_split in H1 by lia.
      assert (H2 : 2 ^ (d1 - 1 + s) <= Z.pos pc * 2 ^ s).
      { rewrite pow2_split by lia. nia. }
      pose proof (pow2_pos 52 ltac:(lia)). nia. }
  unfold Z.div in Hq. destruct (Z.div_eucl m' (Z.pos pr)) as [q r].
  destruct Hq as (Hq1 & Hq2).
  destruct q as [|pq|pq]; try lia.
  assert (Dq : 53 <= Z.pos (digits2_pos pq)).
  { pose proof (digits2_pos_bounds pq) as [_ Qhi].
    destruct (Z.le_gt_cases 53 (Z.pos (digits2_pos pq))) as [|Hlt]; [assumption|].
    assert (2 ^ Z.pos (digits2_pos pq) <= 2 ^ 52) by (apply Z.pow_le_mono_r; lia). lia. }
  apply (binary_round_aux_lower pq e' _ 4503599627370496 (-52)).
  - lia.
  - rewrite fexp_eq. lia.
  - reflexivity.
  - unfold scaled. change (Z.pos 4503599627370496) with (2 ^ 52).
    rewrite <- pow2_split by lia.
    replace (52 + (-52 + 1074)) with (s + (e' + 1074)) by (unfold s; lia).
    rewrite pow2_split by lia.
    apply Z.mul_le_mono_nonneg_r; [pose proof (pow2_pos (e' + 1074)); lia | exact Hq1].
Qed.

(** ** Not-positive results *)

Lemma SFnp_not_positive x : SFnp (Prim2SF x) -> (0 <? x)%float = false.
Proof.
  rewrite ltb_spec, Prim2SF_zero.
  destruct (Prim2SF x) as [s|s| |s m e]; try destruct s; simpl; intuition discriminate.
Qed.

Lemma binary_round_aux_np mx ex lx : SFnp (binary_round_aux prec emax true mx ex lx).
Proof.
  pose proof (binary_round_aux_sign true mx ex lx) as H.
  destruct (binary_round_aux prec emax true mx ex lx); subst; simpl; auto.
Qed.

Lemma binary_round_np m e : SFnp (binary_round prec emax true m e).
Proof.
  unfold binary_round. destruct (shl_align m e _) as [mz ez]. apply binary_round_aux_np.
Qed.

(** [1.0 - q] for a float [q >= 1.0]. *)
Lemma one_minus_np (m : positive) (e : Z) :
  bounded prec emax m e = true -> 2 ^ 1074 <= scaled m e ->
  SFnp (SF64sub (S754_finite false 4503599627370496 (-52)) (S754_finite false m e)).
Proof.
  intros Hb Hle. destruct (canonical_exponent _ _ Hb) as (_ & He).
  unfold SF64sub, SFsub. cbn [cond_Zopp].
  set (ez := Z.min (-52) e).
  assert (Hez : -1074 <= ez <= -52 /\ ez <= e) by (unfold ez; lia).
  rewrite (shl_align_value 4503599627370496 (-52) ez) by lia.
  rewrite (shl_align_value m e ez) by lia.
  assert (Hd : Z.pos 4503599627370496 * 2 ^ (-52 - ez) - Z.pos m * 2 ^ (e - ez) <= 0).
  { assert (H1 : Z.pos 4503599627370496 * 2 ^ (-52 - ez) * 2 ^ (ez + 1074) = 2 ^ 1074).
    { change (Z.pos 4503599627370496) with (2 ^ 52).
      rewrite <- !pow2_split by lia. f_equal. lia. }
    assert (H2 : Z.pos m * 2 ^ (e - ez) * 2 ^ (ez + 1074) = scaled m e).
    { unfold scaled. rewrite <- Z.mul_assoc, <- pow2_split by lia. do 2 f_equal. lia. }
    pose proof (pow2_pos (ez + 1074) ltac:(lia)). nia. }
  destruct (_ - _) as [|z|z]; [exact I | lia |].
  cbn [binary_normalize]. apply binary_round_np.
Qed.

Lemma SFmul_np_pos a (mb : positive) (eb : Z) :
  SFnp a -> SFnp (SF64mul a (S754_finite false mb eb)).
Proof.
  destruct a as [[]|[]| |[] ma ea]; simpl; intros Ha; try contradiction; try exact I.
  apply binary_round_aux_np.
Qed.

Lemma SF2Prim_np y : SFnp y -> SFnp (Prim2SF (SF2Prim y)).
Proof.
  destruct y as [[]|[]| |[] m e]; simpl; try contradiction; intros _; try exact I.
  rewrite opp_spec.
  pose proof (SF2Prim_ge0 (S754_finite false m e) I) as H. simpl in H.
  destruct (Prim2SF _) as [[]|[]| |[] m' e']; simpl in *; try contradiction; exact I.
Qed.

Lemma round_ndigits_np x n :
  SFnp (Prim2SF x) -> SFnp (Prim2SF (Py.round_ndigits x n)).
Proof.
  unfold Py.round_ndigits. intros Hx.
  destruct (Prim2SF x) as [s|s| |s m e] eqn:E; try (rewrite E; exact Hx).
  destruct s; [|contradiction].
  destruct (Py.round_half_even _ e) as [|k|k]; try (apply SF2Prim_np; exact I).
  apply SF2Prim_np. unfold Py.SFofZ.
  destruct (10 ^ n) as [|p|p] eqn:Ep.
  - exact I.
  - unfold SF64div, SFdiv.
    destruct (SFdiv_core_binary prec emax (Z.pos k) 0 (Z.pos p) 0) as [[mz ez] lz].
    apply binary_round_aux_np.
  - pose proof (Z.pow_nonneg 10 n). lia.
Qed.

Lemma Prim2SF_hundred : Prim2SF 100 = S754_finite false 7036874417766400 (-46).
Proof. reflexivity. Qed.

(** The int quotient of [stockout_risk], when the stock covers the
    reorder point. *)
Lemma int_truediv_ge_one (cs rop : Z) (q : float) :
  0 < rop <= cs -> Py.int_truediv cs rop = Ok q ->
  exists m e, Prim2SF q = S754_finite false m e /\
              bounded prec emax m e = true /\ 2 ^ 1074 <= scaled m e.
Proof.
  intros Hr. unfold Py.int_truediv.
  destruct (Z.eqb_spec rop 0); [lia|].
  destruct rop as [|pr|pr]; try lia. destruct cs as [|pc|pc]; try lia.
  cbn [Py.SFofZ].
  pose proof (int_quotient_ge_one pc pr ltac:(lia)) as H.
  destruct (SF64div _ _) as [s|s| |s m e]; try contradiction.
  - subst s. cbn [SF2Prim]. change (is_infinity infinity) with true. discriminate.
  - destruct H as (-> & Hb & Hle).
    remember (SF2Prim (S754_finite false m e)) as f eqn:Ef.
    destruct (is_infinity f); [discriminate|]. intros E. inversion E; subst q.
    rewrite Ef, Prim2SF_SF2Prim by exact Hb. eauto.
Qed.

(** X11: a stock at or above the reorder point has stockout risk
    exactly [0.0], whenever [stockout_risk] returns: the quotient
    [current_stock / rop] is not below [1.0], so the percentage is not
    positive and [max] clamps it.  Every row the pipeline produces, under
    any configuration, with [Reorder_Point <= Current_Stock] has
    [Stockout_Risk_Pct = 0.0]. *)
Theorem stockout_risk_zero_at_reorder_point :
  (forall (current_stock rop : Z) (risk : float),
      rop <= current_stock ->
      stockout_risk current_stock rop = Ok risk -> risk = 0%float) /\
  (forall (cfg : Params) (params_df : list Input.row) (out : list Metrics.row),
      run_optimization cfg params_df = Ok out ->
      Forall (fun m => Metrics.Reorder_Point m <= Metrics.Current_Stock m ->
                       Metrics.Stockout_Risk_Pct m = 0%float) out).
Proof.
  assert (H : forall cs rop risk,
             rop <= cs -> stockout_risk cs rop = Ok risk -> risk = 0%float).
  { intros cs rop risk Hle. unfold stockout_risk.
    destruct (Z.ltb_spec 0 rop) as [Hpos|Hnp]; [|intros E; inversion E; reflexivity].
    intros E. inv_bind E. inversion E; subst risk. clear E.
    destruct (int_truediv_ge_one cs rop v ltac:(lia) E0) as (m & e & Eq & Hb & H1).
    unfold Py.max. rewrite SFnp_not_positive; [reflexivity|].
    apply round_ndigits_np. rewrite mul_spec, Prim2SF_hundred.
    apply SFmul_np_pos. rewrite sub_spec, Prim2SF_one, Eq.
    apply one_minus_np; assumption. }
  split; [exact H|].
  intros cfg params_df out Hrun. apply Forall_forall. intros m Hin Hle.
  destruct (run_optimization_In _ _ _ _ Hrun Hin) as (r & _ & Hrow).
  apply optimization_row_Ok in Hrow.
  destruct Hrow as (eq & ss & rop & _ & _ & _ & _ & Hsr & _ & _ & Hp & Hc & _).
  rewrite Hp, Hc in Hle. exact (H _ _ _ Hle Hsr).
Qed.

Lemma stockout_risk_zero_at_reorder_point_witness :
  stockout_risk 2000 224 = Ok 0%float /\
  exists out,
    run_optimization DEFAULT_PARAMS sample_params = Ok out /\
    Forall (fun m => Metrics.Reorder_Point m <= Metrics.Current_Stock m ->
                     Metrics.Stockout_Risk_Pct m = 0%float) out.
Proof.
  destruct stockout_risk_zero_at_reorder_point as (Ha & Hb). split.
  - destruct (stockout_risk 2000 224) as [risk|e] eqn:E; [|vm_compute in E; discriminate].
    f_equal. apply (Ha 2000 224 risk); [lia | exact E].
  - destruct (run_optimization DEFAULT_PARAMS sample_params) as [out|e] eqn:E;
      [|vm_compute in E; discriminate].
    exists out. split; [reflexivity|]. exact (Hb DEFAULT_PARAMS sample_params out E).
Defined.

(** ** An empty shelf *)

Lemma Prim2SF_zero_inv x : Prim2SF x = S754_zero false -> x = 0%float.
Proof.
  intros H. rewrite <- (SF2Prim_Prim2SF x), H. reflexivity.
Qed.

(** X12: an empty shelf: with a stock of [0] and a reorder point
    [> 0] the stockout risk is [100.0], and the days of supply of a
    stock of [0] are [0.0] for every demand when the working days are
    not zero. *)
Theorem out_of_stock_row :
  (forall (rop : Z), 0 < rop -> stockout_risk 0 rop = Ok 100%float) /\
  (forall (ann_demand working_days : float),
      (working_days =? 0)%float = false ->
      days_of_supply 0 ann_demand working_days = Ok 0%float).
Proof.
  split.
  - intros rop Hrop. unfold stockout_risk, Py.int_truediv.
    destruct (Z.ltb_spec 0 rop); [|lia]. destruct (Z.eqb_spec rop 0); [lia|].
    destruct rop as [|p|p]; try lia. reflexivity.
  - intros D wd Hwd. unfold days_of_supply, Py.truediv. rewrite Hwd. cbn [bind].
    destruct (0 <? D / wd)%float eqn:Hdd; [|reflexivity].
    change (Py.float_of_int 0) with (Ok 0%float). cbn [bind].
    rewrite (SFgt0_not_eqb0 _ (proj1 (fpositive_spec _) Hdd)). cbn [bind].
    f_equal.
    assert (Hq : Prim2SF (0 / (D / wd)) = S754_zero false).
    { rewrite div_spec, Prim2SF_zero.
      apply fpositive_spec in Hdd.
      destruct (Prim2SF (D / wd)) as [s|s| |s m e]; try destruct s;
        simpl in Hdd; try contradiction; reflexivity. }
    unfold Py.round_ndigits. rewrite Hq. apply Prim2SF_zero_inv. exact Hq.
Qed.

Lemma out_of_stock_row_witness :
  stockout_risk 0 785 = Ok 100%float /\
  days_of_supply 0 12000 250 = Ok 0%float.
Proof.
  destruct out_of_stock_row as (Ha & Hb). split.
  - apply Ha. lia.
  - apply Hb. reflexivity.
Defined.

(* ================================================================== *)
(** * The cost columns *)







